(** * The swap server client of loop ([swap_server_client.go])

    A shallow embedding of the gRPC client that negotiates swaps with the
    swap server, and the properties of its response validation, transport
    selection and deadline handling.

    Go values are modelled as follows.
    - [[]byte] and [[33]byte] are [list byte]; a fixed array is a list whose
      length is kept by the operations that build it ([copy]).
    - [string] is [string]; its bytes are the characters.
    - [uint64], [int64], [int32] are [Z]; conversions between them are
      written out with their wrap-around.
    - a Go result pair, a pointer and an [error], is
      [option T * option error], with [None] for [nil] on either side.
    - everything the package does to the outside world (reading the pinned
      certificate, dialing, invoking an RPC) is appended to a trace of
      events; what the outside world answers is read from a [World]. *)

From Stdlib Require Import ZArith List String Ascii Bool Lia.
From Stdlib.Strings Require Import Byte.
From Stdlib Require Import DecimalString.
Import ListNotations.

Local Open Scope string_scope.
Local Open Scope list_scope.
Local Open Scope Z_scope.

(** ** Byte slices and strings *)

Definition bytes := list byte.

(** [byte(n)]: conversion of an integer to a byte keeps the low 8 bits. *)
Definition byte_of_Z (n : Z) : byte :=
  match Byte.of_N (Z.to_N (n mod 256)) with
  | Some b => b
  | None => x00
  end.

Definition Z_of_byte (b : byte) : Z := Z.of_N (Byte.to_N b).

(** [[]byte(s)] and [string(b)]. *)
Definition bytes_of_string (s : string) : bytes :=
  List.map byte_of_ascii (list_ascii_of_string s).

Definition string_of_bytes (b : bytes) : string :=
  string_of_list_ascii (List.map ascii_of_byte b).

(** The zero value of [[n]byte]. *)
Definition zero_array (n : nat) : bytes := repeat x00 n.

(** The builtin [copy(dst, src)]: the first [min (len dst) (len src)]
    elements of [dst] are overwritten by those of [src]; the rest of [dst]
    stays. The result is the new content of [dst]. *)
Definition copy (dst src : bytes) : bytes :=
  firstn (List.length dst) src ++ skipn (List.length src) dst.

(** Printing of an integer with the verb [%d]. *)
Definition fmt_d (n : Z) : string :=
  NilZero.string_of_int (Z.to_int n).

(** ** Integer conversions *)

Definition to_uint64 (z : Z) : Z := z mod 2 ^ 64.
Definition to_int64 (z : Z) : Z := (z + 2 ^ 63) mod 2 ^ 64 - 2 ^ 63.

(** ** Errors

    The dynamic types of the [error] values that reach this package. *)

Inductive error : Type :=
| errorString (s : string)
    (** [errors.New] and [fmt.Errorf] *)
| InvalidByteError (b : byte)
    (** [hex.InvalidByteError] *)
| ErrLength
    (** [hex.ErrLength] *)
| externalError (msg : string).
    (** an error made by the RPC runtime, the operating system or the
        remote service; this package only passes it on or prints it *)

(** [%#U] of a byte taken as a rune, as [hex.InvalidByteError] prints it. *)
Definition hex_digit_upper (n : Z) : string :=
  String (ascii_of_byte (byte_of_Z (if n <? 10 then 48 + n else 55 + n))) "".

Definition isPrint_latin1 (n : Z) : bool :=
  ((32 <=? n) && (n <=? 126)) || ((161 <=? n) && negb (n =? 173)).

Definition utf8_of_latin1 (n : Z) : string :=
  if n <? 128 then String (ascii_of_byte (byte_of_Z n)) ""
  else String (ascii_of_byte (byte_of_Z (192 + n / 64)))
        (String (ascii_of_byte (byte_of_Z (128 + n mod 64))) "").

Definition fmt_sharp_U (b : byte) : string :=
  let n := Z_of_byte b in
  ("U+00" ++ hex_digit_upper (n / 16) ++ hex_digit_upper (n mod 16)
   ++ (if isPrint_latin1 n then " '" ++ utf8_of_latin1 n ++ "'" else ""))%string.

(** The method [Error()]. *)
Definition Error (e : error) : string :=
  match e with
  | errorString s => s
  | InvalidByteError b =>
      String.append "encoding/hex: invalid byte: " (fmt_sharp_U b)
  | ErrLength => "encoding/hex: odd length hex string"
  | externalError msg => msg
  end.

(** [errors.New(text)]. *)
Definition errors_New (text : string) : error := errorString text.

(** [fmt.Errorf(prefix + "%v", err)]: the only shape of format this package
    uses, a fixed text followed by the printed error. *)
Definition fmt_Errorf_v (prefix : string) (err : error) : error :=
  errorString (String.append prefix (Error err)).

(** ** [encoding/hex] *)

Module hex.

(** [fromHexChar]: the value of a hexadecimal digit. *)
Definition fromHexChar (c : byte) : option Z :=
  let n := Z_of_byte c in
  if (48 <=? n) && (n <=? 57) then Some (n - 48)
  else if (97 <=? n) && (n <=? 102) then Some (n - 97 + 10)
  else if (65 <=? n) && (n <=? 70) then Some (n - 65 + 10)
  else None.

(** [Decode]: the bytes decoded before the first error, and the error.
    A bad character is reported before an odd length. *)
Fixpoint Decode (src : bytes) : bytes * option error :=
  match src with
  | [] => ([], None)
  | [c] =>
      match fromHexChar c with
      | None => ([], Some (InvalidByteError c))
      | Some _ => ([], Some ErrLength)
      end
  | c1 :: c2 :: rest =>
      match fromHexChar c1 with
      | None => ([], Some (InvalidByteError c1))
      | Some a =>
          match fromHexChar c2 with
          | None => ([], Some (InvalidByteError c2))
          | Some b =>
              let (out, err) := Decode rest in
              (byte_of_Z (Z.lor (Z.shiftl a 4) b) :: out, err)
          end
      end
  end.

Definition DecodeString (s : string) : bytes * option error :=
  Decode (bytes_of_string s).

Definition hextable : string := "0123456789abcdef".

Definition hexdigit (n : Z) : byte :=
  match get (Z.to_nat n) hextable with
  | Some c => byte_of_ascii c
  | None => x00
  end.

(** [Encode] and [EncodeToString]. *)
Fixpoint Encode (src : bytes) : bytes :=
  match src with
  | [] => []
  | v :: rest =>
      hexdigit (Z.shiftr (Z_of_byte v) 4)
      :: hexdigit (Z.land (Z_of_byte v) 15) :: Encode rest
  end.

Definition EncodeToString (src : bytes) : string :=
  string_of_bytes (Encode src).

End hex.

(** ** [btcec]: public keys on secp256k1 *)

Module btcec.

Record KoblitzCurve : Type := {
  P : Z;       (** the order of the underlying field *)
  N : Z;       (** the order of the base point *)
  B : Z;       (** the constant of the curve equation [y^2 = x^3 + B] *)
  Gx : Z;
  Gy : Z;
  BitSize : Z
}.

(** [S256()]: the parameters of secp256k1. *)
Definition S256 : KoblitzCurve := {|
  P := 0xFFFFFFFFFFFFFFFFFFFFFFFFFFFFFFFFFFFFFFFFFFFFFFFFFFFFFFFEFFFFFC2F;
  N := 0xFFFFFFFFFFFFFFFFFFFFFFFFFFFFFFFEBAAEDCE6AF48A03BBFD25E8CD0364141;
  B := 7;
  Gx := 0x79BE667EF9DCBBAC55A06295CE870B07029BFCDB2DCE28D959F2815B16F81798;
  Gy := 0x483ADA7726A3C4655DA4FBFC0E1108A8FD17B448A68554199C47D08FFB10D4B8;
  BitSize := 256
|}.

Definition QPlus1Div4 (curve : KoblitzCurve) : Z := (P curve + 1) / 4.

Record PublicKey : Type := {
  Curve : KoblitzCurve;
  X : Z;
  Y : Z
}.

Definition PubKeyBytesLenCompressed : Z := 33.
Definition PubKeyBytesLenUncompressed : Z := 65.

Definition pubkeyCompressed : Z := 2.
Definition pubkeyUncompressed : Z := 4.
Definition pubkeyHybrid : Z := 6.

(** [new(big.Int).SetBytes(b)]: [b] read as a big-endian number. *)
Definition SetBytes (b : bytes) : Z :=
  fold_left (fun acc v => acc * 256 + Z_of_byte v) b 0.

Definition isOdd (a : Z) : bool := Z.testbit a 0.

(** [new(big.Int).Exp(x, y, m)] for a positive exponent, by repeated
    squaring. *)
Fixpoint Exp_pos (x : Z) (y : positive) (m : Z) : Z :=
  match y with
  | xH => x mod m
  | xO y' => let r := Exp_pos x y' m in (r * r) mod m
  | xI y' => let r := Exp_pos x y' m in ((r * r) mod m * x) mod m
  end.

Definition Exp (x y m : Z) : Z :=
  match y with
  | Zpos y' => Exp_pos x y' m
  | _ => 1 mod m
  end.

(** [decompressPoint]: the [y] coordinate with the parity [ybit] that
    belongs to [x], when there is one. The library computes in the field:
    [x] counts modulo [P], and so does the negation of [y]. *)
Definition decompressPoint (curve : KoblitzCurve) (x : Z) (ybit : bool)
  : option Z * option error :=
  let x3 := (x * x * x + B curve) mod P curve in
  let y := Exp x3 (QPlus1Div4 curve) (P curve) in
  let y :=
    if negb (Bool.eqb ybit (isOdd y)) then (P curve - y) mod P curve
    else y in
  let y2 := (y * y) mod P curve in
  if negb (y2 =? x3) then
    (None, Some (errorString "invalid square root"))
  else if negb (Bool.eqb ybit (isOdd y)) then
    (None, Some (errorString "ybit doesn't match oddness"))
  else (Some y, None).

(** [curve.IsOnCurve(x, y)]. *)
Definition IsOnCurve (curve : KoblitzCurve) (x y : Z) : bool :=
  (y * y) mod P curve =? (x * x * x + B curve) mod P curve.

(** The checks [ParsePubKey] makes on an uncompressed or hybrid key, whose
    two coordinates are both read from the string. *)
Definition checkPoint (curve : KoblitzCurve) (x y : Z)
  : option PublicKey * option error :=
  if P curve <=? x then
    (None, Some (errorString "pubkey X parameter is >= to P"))
  else if P curve <=? y then
    (None, Some (errorString "pubkey Y parameter is >= to P"))
  else if negb (IsOnCurve curve x y) then
    (None, Some (errorString "pubkey isn't on secp256k1 curve"))
  else (Some {| Curve := curve; X := x; Y := y |}, None).

(** Modelled from the spec: [btcec.ParsePubKey] is a function of the btcec
    library, which this package imports; the spec asks of it that the key
    be a valid compressed secp256k1 public key, that is, decode as a point
    of the curve. The model decodes the serialized forms the way the
    library does: by length (33 compressed, 65 uncompressed or hybrid),
    then by the format byte. The point of an uncompressed or hybrid key is
    checked for its range and for the curve equation. Of a compressed key
    only [x] is read; it is accepted when [decompressPoint] finds its [y],
    and [x] is kept as it was read, with no test that it lies below
    [P]. *)
Definition ParsePubKey (pubKeyStr : bytes) (curve : KoblitzCurve)
  : option PublicKey * option error :=
  match pubKeyStr with
  | [] => (None, Some (errors_New "pubkey string is empty"))
  | b0 :: _ =>
      let ybit := Z.land (Z_of_byte b0) 1 =? 1 in
      let format := Z.land (Z_of_byte b0) 254 in
      let len := Z.of_nat (List.length pubKeyStr) in
      if len =? PubKeyBytesLenUncompressed then
        if negb (format =? pubkeyUncompressed)
           && negb (format =? pubkeyHybrid) then
          (None, Some (errorString (String.append
             "invalid magic in pubkey str: " (fmt_d (Z_of_byte b0)))))
        else
          let x := SetBytes (firstn 32 (skipn 1 pubKeyStr)) in
          let y := SetBytes (skipn 33 pubKeyStr) in
          if (format =? pubkeyHybrid) && negb (Bool.eqb ybit (isOdd y)) then
            (None, Some (errorString "ybit doesn't match oddness"))
          else checkPoint curve x y
      else if len =? PubKeyBytesLenCompressed then
        if negb (format =? pubkeyCompressed) then
          (None, Some (errorString (String.append
             "invalid magic in compressed pubkey string: "
             (fmt_d (Z_of_byte b0)))))
        else
          let x := SetBytes (firstn 32 (skipn 1 pubKeyStr)) in
          match decompressPoint curve x ybit with
          | (Some y, _) => (Some {| Curve := curve; X := x; Y := y |}, None)
          | (None, err) => (None, err)
          end
      else
        (None, Some (errorString (String.append
           "invalid pub key length " (fmt_d len))))
  end.

End btcec.

(** ** Time and [context] *)

(** [time.Time] as nanoseconds since the Unix epoch, [time.Duration] as
    nanoseconds. *)
Definition Time := Z.
Definition Duration := Z.

Definition Second : Duration := 1000000000.

(** [t.Unix()]: whole seconds since the epoch. *)
Definition Unix (t : Time) : Z := t / Second.

(** [t.Add(d)]. *)
Definition Add (t : Time) (d : Duration) : Time := t + d.

Module context.

(** A context, as far as this package looks at it: the deadline it
    carries, if any. *)
Record Context : Type := { Deadline : option Time }.

Definition Background : Context := {| Deadline := None |}.

Definition DeadlineExceeded : error :=
  externalError "context deadline exceeded".

(** [WithDeadline(parent, d)]: when the parent's deadline is already
    sooner than [d] the child keeps it, otherwise the child expires
    at [d]. *)
Definition WithDeadline (parent : Context) (d : Time) : Context :=
  match Deadline parent with
  | Some cur => if cur <? d then parent else {| Deadline := Some d |}
  | None => {| Deadline := Some d |}
  end.

(** [WithTimeout(parent, timeout)], called at the instant [now]. *)
Definition WithTimeout (now : Time) (parent : Context) (timeout : Duration)
  : Context :=
  WithDeadline parent (Add now timeout).

(** [ctx.Err()] read at the instant [t], for a context nobody cancels:
    non-nil from the deadline on. *)
Definition Err (ctx : Context) (t : Time) : option error :=
  match Deadline ctx with
  | Some d => if d <=? t then Some DeadlineExceeded else None
  | None => None
  end.

End context.

(** ** [lsat], [credentials] and [grpc] *)

(** Handles on collaborators this package never looks into. *)
Inductive LndServices : Type := LndServicesAt (addr : nat).
Inductive Store : Type := StoreAt (addr : nat).

Module lsat.

Record Interceptor : Type := {
  lnd : LndServices;
  store : Store;
  callTimeout : Duration
}.

Definition NewInterceptor (lnd : LndServices) (store : Store)
  (rpcCallTimeout : Duration) : Interceptor :=
  {| lnd := lnd; store := store; callTimeout := rpcCallTimeout |}.

End lsat.

Module credentials.

(** [x509.CertPool]: the certificates it holds, each in DER form. *)
Definition CertPool := list bytes.

(** [tls.Config], with the two fields this package's paths set;
    [RootCAs = None] is the nil pool, which selects the host's root set. *)
Record Config : Type := {
  ServerName : string;
  RootCAs : option CertPool
}.

Definition emptyConfig : Config := {| ServerName := ""; RootCAs := None |}.

Inductive TransportCredentials : Type :=
| NewTLS (c : Config).

End credentials.

Module grpc.

Inductive DialOption : Type :=
| WithUnaryInterceptor (f : lsat.Interceptor)
| WithInsecure
| WithTransportCredentials (creds : option credentials.TransportCredentials).

Record ClientConn : Type := {
  target : string;
  dopts : list DialOption
}.

End grpc.

(** ** [looprpc]: the wire messages and the server stub *)

(** What a generated stub method returns: the reply, or the error of the
    call; never both and never neither. *)
Inductive reply (A : Type) : Type :=
| Reply (r : A)
| Fail (err : error).

Arguments Reply {A} r.
Arguments Fail {A} err.

Module looprpc.

(** Modelled from the spec: the message types are generated code of the
    package [looprpc], which is not among the sources; section 6 of the
    spec lists their fields and types, and the field names are those the
    client code uses. *)
Record ServerLoopOutTermsRequest : Type := {}.

Module ServerLoopOutTerms.
Record t : Type := { MinSwapAmount : Z; MaxSwapAmount : Z }.
End ServerLoopOutTerms.

Module ServerLoopOutQuoteRequest.
Record t : Type := { Amt : Z; SwapPublicationDeadline : Z }.
End ServerLoopOutQuoteRequest.

Module ServerLoopOutQuote.
Record t : Type := {
  PrepayAmt : Z;
  SwapFee : Z;
  CltvDelta : Z;
  SwapPaymentDest : string
}.
End ServerLoopOutQuote.

Record ServerLoopInTermsRequest : Type := {}.

Module ServerLoopInTerms.
Record t : Type := { MinSwapAmount : Z; MaxSwapAmount : Z }.
End ServerLoopInTerms.

Module ServerLoopInQuoteRequest.
Record t : Type := { Amt : Z }.
End ServerLoopInQuoteRequest.

Module ServerLoopInQuoteResponse.
Record t : Type := { SwapFee : Z; CltvDelta : Z }.
End ServerLoopInQuoteResponse.

Module ServerLoopOutRequest.
Record t : Type := {
  SwapHash : bytes;
  Amt : Z;
  ReceiverKey : bytes;
  SwapPublicationDeadline : Z
}.
End ServerLoopOutRequest.

Module ServerLoopOutResponse.
Record t : Type := {
  SwapInvoice : string;
  PrepayInvoice : string;
  SenderKey : bytes;
  Expiry : Z
}.
End ServerLoopOutResponse.

Module ServerLoopInRequest.
Record t : Type := {
  SwapHash : bytes;
  Amt : Z;
  SenderKey : bytes;
  SwapInvoice : string
}.
End ServerLoopInRequest.

Module ServerLoopInResponse.
Record t : Type := { ReceiverKey : bytes; Expiry : Z }.
End ServerLoopInResponse.

(** The request of one call, whatever its method. *)
Inductive Request : Type :=
| CallLoopOutTerms (r : ServerLoopOutTermsRequest)
| CallLoopOutQuote (r : ServerLoopOutQuoteRequest.t)
| CallLoopInTerms (r : ServerLoopInTermsRequest)
| CallLoopInQuote (r : ServerLoopInQuoteRequest.t)
| CallNewLoopOutSwap (r : ServerLoopOutRequest.t)
| CallNewLoopInSwap (r : ServerLoopInRequest.t).

(** The interface [SwapServerClient]: for each method, what the call
    returns for a context and a request. *)
Record SwapServerClient : Type := {
  LoopOutTerms :
    context.Context -> ServerLoopOutTermsRequest ->
    reply ServerLoopOutTerms.t;
  LoopOutQuote :
    context.Context -> ServerLoopOutQuoteRequest.t ->
    reply ServerLoopOutQuote.t;
  LoopInTerms :
    context.Context -> ServerLoopInTermsRequest ->
    reply ServerLoopInTerms.t;
  LoopInQuote :
    context.Context -> ServerLoopInQuoteRequest.t ->
    reply ServerLoopInQuoteResponse.t;
  NewLoopOutSwap :
    context.Context -> ServerLoopOutRequest.t ->
    reply ServerLoopOutResponse.t;
  NewLoopInSwap :
    context.Context -> ServerLoopInRequest.t ->
    reply ServerLoopInResponse.t
}.

End looprpc.

(** ** The outside world and the trace of what is done to it *)

Inductive event : Type :=
| ReadFile (filename : string)
| Dial (target : string) (opts : list grpc.DialOption)
| Invoke (ctx : context.Context) (req : looprpc.Request)
| CloseConn (conn : option grpc.ClientConn).

Definition trace := list event.

Record World : Type := {
  (** [time.Now()] *)
  time_Now : Time;
  (** [ioutil.ReadFile]: the content of a file, or why it cannot be read *)
  file : string -> bytes * option error;
  (** [AppendCertsFromPEM] on a fresh [x509.CertPool]: the certificates
      found, and whether any was *)
  AppendCertsFromPEM : bytes -> credentials.CertPool * bool;
  (** why [grpc.Dial] fails for a target and options, if it does *)
  dialError : string -> list grpc.DialOption -> option error;
  (** [looprpc.NewSwapServerClient]: the stub on a connection, that is, how
      the service behind it answers *)
  NewSwapServerClient : option grpc.ClientConn -> looprpc.SwapServerClient
}.

(** Computations that extend the trace. *)
Definition M (A : Type) : Type := trace -> A * trace.

Definition ret {A : Type} (a : A) : M A := fun tr => (a, tr).

Definition bind {A B : Type} (m : M A) (k : A -> M B) : M B :=
  fun tr => let (a, tr') := m tr in k a tr'.

Definition emit (e : event) : M unit := fun tr => (tt, tr ++ [e]).

Declare Scope go_scope.
Delimit Scope go_scope with go.
Notation "x <- m ;; k" := (bind m (fun x => k))
  (at level 100, m at next level, right associativity) : go_scope.
Notation "m ;;; k" := (bind m (fun _ => k))
  (at level 100, right associativity) : go_scope.
Local Open Scope go_scope.

(** A call through a generated stub method: the call goes out with its
    context and request, and the stub hands back what the service (or the
    runtime) answers. *)
Definition invoke {Req Resp : Type} (tag : Req -> looprpc.Request)
  (method : context.Context -> Req -> reply Resp)
  (ctx : context.Context) (req : Req) : M (reply Resp) :=
  emit (Invoke ctx (tag req)) ;;; ret (method ctx req).

(** ** The RPC runtime *)

Module runtime.

(** A service behind the channel: what it answers to each request, and how
    long after the call its answer reaches the client. *)
Record Service : Type := {
  LoopOutTerms :
    looprpc.ServerLoopOutTermsRequest -> reply looprpc.ServerLoopOutTerms.t;
  LoopOutQuote :
    looprpc.ServerLoopOutQuoteRequest.t -> reply looprpc.ServerLoopOutQuote.t;
  LoopInTerms :
    looprpc.ServerLoopInTermsRequest -> reply looprpc.ServerLoopInTerms.t;
  LoopInQuote :
    looprpc.ServerLoopInQuoteRequest.t ->
    reply looprpc.ServerLoopInQuoteResponse.t;
  NewLoopOutSwap :
    looprpc.ServerLoopOutRequest.t -> reply looprpc.ServerLoopOutResponse.t;
  NewLoopInSwap :
    looprpc.ServerLoopInRequest.t -> reply looprpc.ServerLoopInResponse.t;
  latency : looprpc.Request -> Duration
}.

(** Modelled from the spec: the runtime that carries a call is the gRPC
    library, which is not part of this package. Section 4.2 (c) and
    section 5 of the spec say what it does with the context of a call:
    the call waits for the answer of the service, and the expiry of the
    deadline aborts it and surfaces the deadline error instead of an
    answer. A call made at [now] whose answer takes [lat] returns the
    answer when the context is not done at [now + lat], and the error of
    the context otherwise. *)
Definition call {Req Resp : Type} (now : Time) (lat : Duration)
  (answer : Req -> reply Resp) (ctx : context.Context) (req : Req)
  : reply Resp :=
  match context.Err ctx (Add now lat) with
  | Some err => Fail err
  | None => answer req
  end.

(** Modelled from the spec: the instant at which such a call returns, the
    arrival of the answer or, if it comes first, the deadline of the
    context, and at once when the deadline has passed already. *)
Definition returnsAt (now : Time) (lat : Duration) (ctx : context.Context)
  : Time :=
  match context.Deadline ctx with
  | Some d => Z.min (Add now lat) (Z.max now d)
  | None => Add now lat
  end.

(** The stub of a service carried by the runtime, for calls made at
    [now]. *)
Definition stub (now : Time) (svc : Service) : looprpc.SwapServerClient := {|
  looprpc.LoopOutTerms := fun ctx req =>
    call now (latency svc (looprpc.CallLoopOutTerms req))
      (LoopOutTerms svc) ctx req;
  looprpc.LoopOutQuote := fun ctx req =>
    call now (latency svc (looprpc.CallLoopOutQuote req))
      (LoopOutQuote svc) ctx req;
  looprpc.LoopInTerms := fun ctx req =>
    call now (latency svc (looprpc.CallLoopInTerms req))
      (LoopInTerms svc) ctx req;
  looprpc.LoopInQuote := fun ctx req =>
    call now (latency svc (looprpc.CallLoopInQuote req))
      (LoopInQuote svc) ctx req;
  looprpc.NewLoopOutSwap := fun ctx req =>
    call now (latency svc (looprpc.CallNewLoopOutSwap req))
      (NewLoopOutSwap svc) ctx req;
  looprpc.NewLoopInSwap := fun ctx req =>
    call now (latency svc (looprpc.CallNewLoopInSwap req))
      (NewLoopInSwap svc) ctx req
|}.

End runtime.

(** ** The values the client returns *)

(** Modelled from the spec: the terms and quote types are declared in
    another file of the package, which is not among the sources; section 3
    of the spec describes them, and the field names are those the client
    code assigns. Amounts are [btcutil.Amount], a signed 64-bit integer. *)
Module LoopOutTerms.
Record t : Type := { MinSwapAmount : Z; MaxSwapAmount : Z }.
End LoopOutTerms.

Module LoopInTerms.
Record t : Type := { MinSwapAmount : Z; MaxSwapAmount : Z }.
End LoopInTerms.

Module LoopOutQuote.
Record t : Type := {
  PrepayAmount : Z;
  SwapFee : Z;
  CltvDelta : Z;
  SwapPaymentDest : bytes
}.
End LoopOutQuote.

Module LoopInQuote.
Record t : Type := { SwapFee : Z; CltvDelta : Z }.
End LoopInQuote.

Module newLoopOutResponse.
Record t : Type := {
  swapInvoice : string;
  prepayInvoice : string;
  senderKey : bytes;
  expiry : Z
}.
End newLoopOutResponse.

Module newLoopInResponse.
Record t : Type := { receiverKey : bytes; expiry : Z }.
End newLoopInResponse.

Record grpcSwapServerClient : Type := {
  server : looprpc.SwapServerClient;
  conn : option grpc.ClientConn
}.

(** A Go result pair. *)
Definition result (A : Type) : Type := (option A * option error)%type.

(** ** The client *)

Section Client.

(** The world the client runs in, and the two timeouts, which are
    constants declared in another file of the package.

    Every operation derives [rpcCtx] from the caller's context and defers
    [rpcCancel]; the deferred call releases the timer when the operation
    returns and has no part in what is sent or returned. *)
Variable w : World.
Variable globalCallTimeout : Duration.
Variable serverRPCTimeout : Duration.

(** [credentials.NewClientTLSFromFile(certFile, serverNameOverride)]. *)
Definition NewClientTLSFromFile (certFile serverNameOverride : string)
  : M (result credentials.TransportCredentials) :=
  emit (ReadFile certFile) ;;;
  match file w certFile with
  | (_, Some err) => ret (None, Some err)
  | (b, None) =>
      let (cp, ok) := AppendCertsFromPEM w b in
      if negb ok then
        ret (None,
             Some (errorString "credentials: failed to append certificates"))
      else
        ret (Some (credentials.NewTLS
                     {| credentials.ServerName := serverNameOverride;
                        credentials.RootCAs := Some cp |}), None)
  end.

(** [grpc.Dial(target, opts...)]. *)
Definition grpc_Dial (target : string) (opts : list grpc.DialOption)
  : M (result grpc.ClientConn) :=
  emit (Dial target opts) ;;;
  match dialError w target opts with
  | Some err => ret (None, Some err)
  | None => ret (Some {| grpc.target := target; grpc.dopts := opts |}, None)
  end.

(** [getSwapServerConn] returns a connection to the swap server. The
    [switch] either settles the dial options or leaves with an error. *)
Definition getSwapServerConn (address : string) (insecure : bool)
  (tlsPath : string) (interceptor : lsat.Interceptor)
  : M (result grpc.ClientConn) :=
  let opts := [grpc.WithUnaryInterceptor interceptor] in
  sel <- (if insecure then
            ret (inl (opts ++ [grpc.WithInsecure]))
          else if negb (tlsPath =? "")%string then
            r <- NewClientTLSFromFile tlsPath "" ;;
            match r with
            | (_, Some err) => ret (inr err)
            | (creds, None) =>
                ret (inl (opts ++ [grpc.WithTransportCredentials creds]))
            end
          else
            let creds := credentials.NewTLS credentials.emptyConfig in
            ret (inl (opts ++ [grpc.WithTransportCredentials (Some creds)])))
  ;;
  match sel with
  | inr err => ret (None, Some err)
  | inl opts =>
      r <- grpc_Dial address opts ;;
      match r with
      | (_, Some err) =>
          ret (None,
               Some (fmt_Errorf_v "unable to connect to RPC server: " err))
      | (conn, None) => ret (conn, None)
      end
  end.

Definition newSwapServerClient (address : string) (insecure : bool)
  (tlsPath : string) (lsatStore : Store) (lnd : LndServices)
  : M (result grpcSwapServerClient) :=
  let clientInterceptor :=
    lsat.NewInterceptor lnd lsatStore serverRPCTimeout in
  r <- getSwapServerConn address insecure tlsPath clientInterceptor ;;
  match r with
  | (_, Some err) => ret (None, Some err)
  | (serverConn, None) =>
      let server := NewSwapServerClient w serverConn in
      ret (Some {| conn := serverConn; server := server |}, None)
  end.

Definition GetLoopOutTerms (s : grpcSwapServerClient)
  (ctx : context.Context) : M (result LoopOutTerms.t) :=
  let rpcCtx := context.WithTimeout (time_Now w) ctx globalCallTimeout in
  r <- invoke looprpc.CallLoopOutTerms (looprpc.LoopOutTerms (server s))
         rpcCtx looprpc.Build_ServerLoopOutTermsRequest ;;
  match r with
  | Fail err => ret (None, Some err)
  | Reply terms =>
      ret (Some {|
             LoopOutTerms.MinSwapAmount :=
               to_int64 (looprpc.ServerLoopOutTerms.MinSwapAmount terms);
             LoopOutTerms.MaxSwapAmount :=
               to_int64 (looprpc.ServerLoopOutTerms.MaxSwapAmount terms)
           |}, None)
  end.

Definition GetLoopOutQuote (s : grpcSwapServerClient)
  (ctx : context.Context) (amt : Z) (swapPublicationDeadline : Time)
  : M (result LoopOutQuote.t) :=
  let rpcCtx := context.WithTimeout (time_Now w) ctx globalCallTimeout in
  r <- invoke looprpc.CallLoopOutQuote (looprpc.LoopOutQuote (server s))
         rpcCtx
         {| looprpc.ServerLoopOutQuoteRequest.Amt := to_uint64 amt;
            looprpc.ServerLoopOutQuoteRequest.SwapPublicationDeadline :=
              Unix swapPublicationDeadline |} ;;
  match r with
  | Fail err => ret (None, Some err)
  | Reply quoteResp =>
      match hex.DecodeString
              (looprpc.ServerLoopOutQuote.SwapPaymentDest quoteResp) with
      | (_, Some err) => ret (None, Some err)
      | (dest, None) =>
          if negb (Z.of_nat (List.length dest) =? 33) then
            ret (None, Some (errors_New "invalid payment dest"))
          else
            let destArray := copy (zero_array 33) dest in
            ret (Some {|
                   LoopOutQuote.PrepayAmount :=
                     to_int64 (looprpc.ServerLoopOutQuote.PrepayAmt quoteResp);
                   LoopOutQuote.SwapFee :=
                     to_int64 (looprpc.ServerLoopOutQuote.SwapFee quoteResp);
                   LoopOutQuote.CltvDelta :=
                     looprpc.ServerLoopOutQuote.CltvDelta quoteResp;
                   LoopOutQuote.SwapPaymentDest := destArray
                 |}, None)
      end
  end.

Definition GetLoopInTerms (s : grpcSwapServerClient)
  (ctx : context.Context) : M (result LoopInTerms.t) :=
  let rpcCtx := context.WithTimeout (time_Now w) ctx globalCallTimeout in
  r <- invoke looprpc.CallLoopInTerms (looprpc.LoopInTerms (server s))
         rpcCtx looprpc.Build_ServerLoopInTermsRequest ;;
  match r with
  | Fail err => ret (None, Some err)
  | Reply terms =>
      ret (Some {|
             LoopInTerms.MinSwapAmount :=
               to_int64 (looprpc.ServerLoopInTerms.MinSwapAmount terms);
             LoopInTerms.MaxSwapAmount :=
               to_int64 (looprpc.ServerLoopInTerms.MaxSwapAmount terms)
           |}, None)
  end.

Definition GetLoopInQuote (s : grpcSwapServerClient)
  (ctx : context.Context) (amt : Z) : M (result LoopInQuote.t) :=
  let rpcCtx := context.WithTimeout (time_Now w) ctx globalCallTimeout in
  r <- invoke looprpc.CallLoopInQuote (looprpc.LoopInQuote (server s))
         rpcCtx {| looprpc.ServerLoopInQuoteRequest.Amt := to_uint64 amt |} ;;
  match r with
  | Fail err => ret (None, Some err)
  | Reply quoteResp =>
      ret (Some {|
             LoopInQuote.SwapFee :=
               to_int64 (looprpc.ServerLoopInQuoteResponse.SwapFee quoteResp);
             LoopInQuote.CltvDelta :=
               looprpc.ServerLoopInQuoteResponse.CltvDelta quoteResp
           |}, None)
  end.

Definition NewLoopOutSwap (s : grpcSwapServerClient)
  (ctx : context.Context) (swapHash : bytes) (amount : Z)
  (receiverKey : bytes) (swapPublicationDeadline : Time)
  : M (result newLoopOutResponse.t) :=
  let rpcCtx := context.WithTimeout (time_Now w) ctx globalCallTimeout in
  r <- invoke looprpc.CallNewLoopOutSwap (looprpc.NewLoopOutSwap (server s))
         rpcCtx
         {| looprpc.ServerLoopOutRequest.SwapHash := swapHash;
            looprpc.ServerLoopOutRequest.Amt := to_uint64 amount;
            looprpc.ServerLoopOutRequest.ReceiverKey := receiverKey;
            looprpc.ServerLoopOutRequest.SwapPublicationDeadline :=
              Unix swapPublicationDeadline |} ;;
  match r with
  | Fail err => ret (None, Some err)
  | Reply swapResp =>
      let senderKey :=
        copy (zero_array 33)
             (looprpc.ServerLoopOutResponse.SenderKey swapResp) in
      (* Validate sender key. *)
      match btcec.ParsePubKey senderKey btcec.S256 with
      | (_, Some err) =>
          ret (None, Some (fmt_Errorf_v "invalid sender key: " err))
      | (_, None) =>
          ret (Some {|
                 newLoopOutResponse.swapInvoice :=
                   looprpc.ServerLoopOutResponse.SwapInvoice swapResp;
                 newLoopOutResponse.prepayInvoice :=
                   looprpc.ServerLoopOutResponse.PrepayInvoice swapResp;
                 newLoopOutResponse.senderKey := senderKey;
                 newLoopOutResponse.expiry :=
                   looprpc.ServerLoopOutResponse.Expiry swapResp
               |}, None)
      end
  end.

Definition NewLoopInSwap (s : grpcSwapServerClient)
  (ctx : context.Context) (swapHash : bytes) (amount : Z)
  (senderKey : bytes) (swapInvoice : string)
  : M (result newLoopInResponse.t) :=
  let rpcCtx := context.WithTimeout (time_Now w) ctx globalCallTimeout in
  r <- invoke looprpc.CallNewLoopInSwap (looprpc.NewLoopInSwap (server s))
         rpcCtx
         {| looprpc.ServerLoopInRequest.SwapHash := swapHash;
            looprpc.ServerLoopInRequest.Amt := to_uint64 amount;
            looprpc.ServerLoopInRequest.SenderKey := senderKey;
            looprpc.ServerLoopInRequest.SwapInvoice := swapInvoice |} ;;
  match r with
  | Fail err => ret (None, Some err)
  | Reply swapResp =>
      let receiverKey :=
        copy (zero_array 33)
             (looprpc.ServerLoopInResponse.ReceiverKey swapResp) in
      (* Validate receiver key. *)
      match btcec.ParsePubKey receiverKey btcec.S256 with
      | (_, Some err) =>
          ret (None, Some (fmt_Errorf_v "invalid sender key: " err))
      | (_, None) =>
          ret (Some {|
                 newLoopInResponse.receiverKey := receiverKey;
                 newLoopInResponse.expiry :=
                   looprpc.ServerLoopInResponse.Expiry swapResp
               |}, None)
      end
  end.

Definition Close (s : grpcSwapServerClient) : M unit :=
  emit (CloseConn (conn s)).

End Client.

(** ** The interface [swapServerClient]

    The six operations as an interface over the type of the receiver, and
    the implementation the source asserts for [grpcSwapServerClient]. *)

Module swapServerClient.

Record t (T : Type) : Type := {
  GetLoopOutTerms :
    T -> context.Context -> M (result LoopOutTerms.t);
  GetLoopOutQuote :
    T -> context.Context -> Z -> Time -> M (result LoopOutQuote.t);
  GetLoopInTerms :
    T -> context.Context -> M (result LoopInTerms.t);
  GetLoopInQuote :
    T -> context.Context -> Z -> M (result LoopInQuote.t);
  NewLoopOutSwap :
    T -> context.Context -> bytes -> Z -> bytes -> Time ->
    M (result newLoopOutResponse.t);
  NewLoopInSwap :
    T -> context.Context -> bytes -> Z -> bytes -> string ->
    M (result newLoopInResponse.t)
}.

End swapServerClient.

Definition grpcSwapServerClient_implements (w : World)
  (globalCallTimeout : Duration)
  : swapServerClient.t grpcSwapServerClient := {|
  swapServerClient.GetLoopOutTerms := GetLoopOutTerms w globalCallTimeout;
  swapServerClient.GetLoopOutQuote := GetLoopOutQuote w globalCallTimeout;
  swapServerClient.GetLoopInTerms := GetLoopInTerms w globalCallTimeout;
  swapServerClient.GetLoopInQuote := GetLoopInQuote w globalCallTimeout;
  swapServerClient.NewLoopOutSwap := NewLoopOutSwap w globalCallTimeout;
  swapServerClient.NewLoopInSwap := NewLoopInSwap w globalCallTimeout
|}.

(** * Properties *)

(** ** The failures the specification names

    The client has no error types of its own: it returns the errors of the
    libraries, or a text. Each name of the specification is read as the set
    of error values the code returns for that failure. *)

(** A payload that is not hexadecimal: the errors of [hex.DecodeString]. *)
Definition DecodeError (e : error) : Prop :=
  e = ErrLength \/ exists c, e = InvalidByteError c.

(** A payment destination of the wrong length. *)
Definition InvalidPaymentDestinationError (e : error) : Prop :=
  e = errors_New "invalid payment dest".

(** A server key that [btcec.ParsePubKey] refuses: the refusal [cause],
    wrapped the way both creation calls wrap it. *)
Definition InvalidServerKeyError (e : error) : Prop :=
  exists (key : bytes) (cause : error),
    snd (btcec.ParsePubKey key btcec.S256) = Some cause /\
    e = errorString (String.append "invalid sender key: " (Error cause)).

(** A pinned certificate that cannot be loaded from [path]: the file cannot
    be read, or holds no certificate. *)
Definition CertificateLoadError (w : World) (path : string) (e : error)
  : Prop :=
  snd (file w path) = Some e
  \/ (snd (file w path) = None
      /\ snd (AppendCertsFromPEM w (fst (file w path))) = false
      /\ e = errorString "credentials: failed to append certificates").

(** The file behind [path] is missing or unparsable. *)
Definition unloadable (w : World) (path : string) : Prop :=
  (exists e, snd (file w path) = Some e)
  \/ snd (AppendCertsFromPEM w (fst (file w path))) = false.

(** A result pair holds exactly one of a value and an error. *)
Definition exactly_one {A : Type} (r : result A) : bool :=
  match r with
  | (Some _, None) => true
  | (None, Some _) => true
  | _ => false
  end.

(** The context every operation hands to its RPC. *)
Definition rpcCtx (w : World) (globalCallTimeout : Duration)
  (ctx : context.Context) : context.Context :=
  context.WithTimeout (time_Now w) ctx globalCallTimeout.

(** The stricter of the caller's deadline, if any, and the deadline the
    global call timeout gives. *)
Definition stricter (caller : option Time) (global : Time) : Time :=
  match caller with
  | Some d => Z.min d global
  | None => global
  end.

(** The dials of a trace. *)
Definition is_dial (e : event) : bool :=
  match e with
  | Dial _ _ => true
  | _ => false
  end.

Definition dials (tr : trace) : trace := filter is_dial tr.

(** A point of secp256k1 in affine coordinates. *)
Definition on_secp256k1 (x y : Z) : Prop :=
  0 <= x < btcec.P btcec.S256
  /\ 0 <= y < btcec.P btcec.S256
  /\ (y * y) mod btcec.P btcec.S256 = (x * x * x + 7) mod btcec.P btcec.S256.

(** The compressed form of a point: the byte 2 or 3 by the parity of [y],
    then [x] in 32 big-endian bytes. *)
Definition compressed_form (x y : Z) (key : bytes) : Prop :=
  exists b0 rest,
    key = b0 :: rest
    /\ List.length rest = 32%nat
    /\ Z_of_byte b0 = 2 + (if Z.odd y then 1 else 0)
    /\ btcec.SetBytes rest = x.

(** The validation both creation calls apply to the key the server
    returned: it is copied into a 33-byte array, and the array is parsed. *)
Definition validateServerKey (key : bytes) : option error :=
  snd (btcec.ParsePubKey (copy (zero_array 33) key) btcec.S256).

(** From the trace [tr] an operation called with the context [ctx] made
    exactly one RPC, under a context whose deadline is the stricter of the
    caller's and of the global call timeout counted from the call; when the
    caller's deadline [d] is the earlier one, the RPC's context expires at
    [d] and is done at every instant from [d] on. *)
Definition one_call_within (w : World) (globalCallTimeout : Duration)
  (ctx : context.Context) (tr tr' : trace) : Prop :=
  exists (c : context.Context) (req : looprpc.Request),
    tr' = tr ++ [Invoke c req]
    /\ context.Deadline c
       = Some (stricter (context.Deadline ctx)
                 (Add (time_Now w) globalCallTimeout))
    /\ forall d : Time,
         context.Deadline ctx = Some d ->
         d < Add (time_Now w) globalCallTimeout ->
         context.Deadline c = Some d
         /\ forall t : Time,
              d <= t -> context.Err c t = Some context.DeadlineExceeded.

(** The outcome [out] of an operation run from the trace [tr] against the
    service [svc] is bounded by the instant [bound]: the operation made
    exactly one RPC; that RPC returned no later than [bound], or at once
    if [bound] had passed already; and if the answer of the service had
    not arrived before [bound], the call was aborted, and the operation
    returns the deadline error and no response. *)
Definition aborted_by {A : Type} (w : World) (svc : runtime.Service)
  (bound : Time) (tr : trace) (out : result A * trace) : Prop :=
  exists (c : context.Context) (req : looprpc.Request),
    snd out = tr ++ [Invoke c req]
    /\ runtime.returnsAt (time_Now w) (runtime.latency svc req) c
       <= Z.max (time_Now w) bound
    /\ (bound <= Add (time_Now w) (runtime.latency svc req) ->
        fst out = (None, Some context.DeadlineExceeded)).

(** The requests the operations send. *)
Definition loopOutQuoteRequest (amt : Z) (swapPublicationDeadline : Time)
  : looprpc.ServerLoopOutQuoteRequest.t :=
  {| looprpc.ServerLoopOutQuoteRequest.Amt := to_uint64 amt;
     looprpc.ServerLoopOutQuoteRequest.SwapPublicationDeadline :=
       Unix swapPublicationDeadline |}.

Definition loopInQuoteRequest (amt : Z)
  : looprpc.ServerLoopInQuoteRequest.t :=
  {| looprpc.ServerLoopInQuoteRequest.Amt := to_uint64 amt |}.

Definition loopOutRequest (swapHash : bytes) (amount : Z)
  (receiverKey : bytes) (swapPublicationDeadline : Time)
  : looprpc.ServerLoopOutRequest.t :=
  {| looprpc.ServerLoopOutRequest.SwapHash := swapHash;
     looprpc.ServerLoopOutRequest.Amt := to_uint64 amount;
     looprpc.ServerLoopOutRequest.ReceiverKey := receiverKey;
     looprpc.ServerLoopOutRequest.SwapPublicationDeadline :=
       Unix swapPublicationDeadline |}.

Definition loopInRequest (swapHash : bytes) (amount : Z)
  (senderKey : bytes) (swapInvoice : string)
  : looprpc.ServerLoopInRequest.t :=
  {| looprpc.ServerLoopInRequest.SwapHash := swapHash;
     looprpc.ServerLoopInRequest.Amt := to_uint64 amount;
     looprpc.ServerLoopInRequest.SenderKey := senderKey;
     looprpc.ServerLoopInRequest.SwapInvoice := swapInvoice |}.

(** A character [hex.fromHexChar] takes for a digit, and a string made of
    such characters only. *)
Definition is_hex_digit (c : byte) : bool :=
  match hex.fromHexChar c with
  | Some _ => true
  | None => false
  end.

Definition all_hex_digits (s : string) : bool :=
  forallb is_hex_digit (bytes_of_string s).

(** A dial option that settles the transport security. *)
Definition is_transport (o : grpc.DialOption) : bool :=
  match o with
  | grpc.WithUnaryInterceptor _ => false
  | grpc.WithInsecure => true
  | grpc.WithTransportCredentials _ => true
  end.

(** The amount [a] the client holds for the value [v] of an unsigned
    64-bit field: [v] itself below [2^63], and [v - 2^64], a negative
    amount, from [2^63] on. *)
Definition amount_of_wire (v a : Z) : Prop :=
  (v < 2 ^ 63 -> a = v) /\ (2 ^ 63 <= v -> a = v - 2 ^ 64).

(** The value [v] that goes out in an unsigned 64-bit field for the
    amount [a]: [a] itself when it is not negative, [a + 2^64]
    otherwise. *)
Definition wire_of_amount (a v : Z) : Prop :=
  (0 <= a -> v = a) /\ (a < 0 -> v = a + 2 ^ 64).

(** From the trace [tr] one RPC was made, under a context that is already
    done at the instant of the call. *)
Definition one_call_already_done (w : World) (tr tr' : trace) : Prop :=
  exists (c : context.Context) (req : looprpc.Request),
    tr' = tr ++ [Invoke c req]
    /\ context.Err c (time_Now w) = Some context.DeadlineExceeded.

(** The events construction adds to a trace: every dial among them goes to
    [address] with the interceptor first and one transport option
    second. *)
Definition dials_well_formed (address : string)
  (interceptor : lsat.Interceptor) (new : trace) : Prop :=
  forall target opts,
    In (Dial target opts) new ->
    target = address
    /\ exists t,
         opts = [grpc.WithUnaryInterceptor interceptor; t]
         /\ is_transport t = true.

(** ** Sample data *)

Definition hexbytes (s : string) : bytes := fst (hex.DecodeString s).

(** The base point of secp256k1 in compressed form. *)
Definition keyG : bytes :=
  hexbytes "0279be667ef9dcbbac55a06295ce870b07029bfcdb2dce28d959f2815b16f81798".

(** The prefix of a compressed key followed by 32 zero bytes. *)
Definition key02 : bytes := x02 :: repeat x00 32.

Definition hexKey02 : string :=
  "020000000000000000000000000000000000000000000000000000000000000000".

(** A compressed key whose last byte is zero ([x = 0x0300]), and the same
    key without that byte. *)
Definition keyZ : bytes := x02 :: repeat x00 30 ++ [x03; x00].
Definition keyZ32 : bytes := x02 :: repeat x00 30 ++ [x03].

(** A compressed key whose [x] is the field prime plus one. *)
Definition keyAboveP : bytes :=
  hexbytes "02fffffffffffffffffffffffffffffffffffffffffffffffffffffffefffffc30".

(** A service that answers every creation call with [key] and every quote
    with the payment destination [dest]. *)
Definition sampleServer (key : bytes) (dest : string)
  : looprpc.SwapServerClient := {|
  looprpc.LoopOutTerms := fun _ _ =>
    Reply {| looprpc.ServerLoopOutTerms.MinSwapAmount := 250000;
             looprpc.ServerLoopOutTerms.MaxSwapAmount := 2000000 |};
  looprpc.LoopOutQuote := fun _ _ =>
    Reply {| looprpc.ServerLoopOutQuote.PrepayAmt := 1337;
             looprpc.ServerLoopOutQuote.SwapFee := 1000;
             looprpc.ServerLoopOutQuote.CltvDelta := 20;
             looprpc.ServerLoopOutQuote.SwapPaymentDest := dest |};
  looprpc.LoopInTerms := fun _ _ =>
    Reply {| looprpc.ServerLoopInTerms.MinSwapAmount := 250000;
             looprpc.ServerLoopInTerms.MaxSwapAmount := 2000000 |};
  looprpc.LoopInQuote := fun _ _ =>
    Reply {| looprpc.ServerLoopInQuoteResponse.SwapFee := 1000;
             looprpc.ServerLoopInQuoteResponse.CltvDelta := 20 |};
  looprpc.NewLoopOutSwap := fun _ _ =>
    Reply {| looprpc.ServerLoopOutResponse.SwapInvoice := "lnbc-swap";
             looprpc.ServerLoopOutResponse.PrepayInvoice := "lnbc-prepay";
             looprpc.ServerLoopOutResponse.SenderKey := key;
             looprpc.ServerLoopOutResponse.Expiry := 600000 |};
  looprpc.NewLoopInSwap := fun _ _ =>
    Reply {| looprpc.ServerLoopInResponse.ReceiverKey := key;
             looprpc.ServerLoopInResponse.Expiry := 600000 |}
|}.

(** A world with no file at all, a PEM reader that finds nothing, where
    every dial succeeds. *)
Definition sampleWorld (key : bytes) (dest : string) : World := {|
  time_Now := 1000 * Second;
  file := fun _ => ([], Some (externalError "no such file or directory"));
  AppendCertsFromPEM := fun _ => ([], false);
  dialError := fun _ _ => None;
  NewSwapServerClient := fun _ => sampleServer key dest
|}.

Definition sampleClient (key : bytes) (dest : string)
  : grpcSwapServerClient :=
  {| server := sampleServer key dest; conn := None |}.

(** A world whose only file is [/tls.cert], holding one certificate. *)
Definition sampleCert : bytes := [x30; x82; x01; x0a].

Definition samplePEM : bytes :=
  bytes_of_string "-----BEGIN CERTIFICATE-----".

Definition pinnedWorld : World := {|
  time_Now := 1000 * Second;
  file := fun name =>
    if (name =? "/tls.cert")%string then (samplePEM, None)
    else ([], Some (externalError "no such file or directory"));
  AppendCertsFromPEM := fun pem =>
    if list_eq_dec Byte.byte_eq_dec pem samplePEM then ([sampleCert], true)
    else ([], false);
  dialError := fun _ _ => None;
  NewSwapServerClient := fun _ => sampleServer keyG ""
|}.

Definition sampleInterceptor : lsat.Interceptor :=
  lsat.NewInterceptor (LndServicesAt 1) (StoreAt 2) (30 * Second).

(** A service whose every call fails with [err]. *)
Definition failingServer (err : error) : looprpc.SwapServerClient := {|
  looprpc.LoopOutTerms := fun _ _ => Fail err;
  looprpc.LoopOutQuote := fun _ _ => Fail err;
  looprpc.LoopInTerms := fun _ _ => Fail err;
  looprpc.LoopInQuote := fun _ _ => Fail err;
  looprpc.NewLoopOutSwap := fun _ _ => Fail err;
  looprpc.NewLoopInSwap := fun _ _ => Fail err
|}.

Definition unavailable : error :=
  externalError "rpc error: code = Unavailable desc = transport is closing".

Definition failingClient : grpcSwapServerClient :=
  {| server := failingServer unavailable; conn := None |}.

(** A service that answers the terms and the in-quote with the amounts
    given. *)
Definition amountServer (minAmt maxAmt fee : Z)
  : looprpc.SwapServerClient := {|
  looprpc.LoopOutTerms := fun _ _ =>
    Reply {| looprpc.ServerLoopOutTerms.MinSwapAmount := minAmt;
             looprpc.ServerLoopOutTerms.MaxSwapAmount := maxAmt |};
  looprpc.LoopOutQuote := fun _ _ => Fail unavailable;
  looprpc.LoopInTerms := fun _ _ =>
    Reply {| looprpc.ServerLoopInTerms.MinSwapAmount := minAmt;
             looprpc.ServerLoopInTerms.MaxSwapAmount := maxAmt |};
  looprpc.LoopInQuote := fun _ _ =>
    Reply {| looprpc.ServerLoopInQuoteResponse.SwapFee := fee;
             looprpc.ServerLoopInQuoteResponse.CltvDelta := 144 |};
  looprpc.NewLoopOutSwap := fun _ _ => Fail unavailable;
  looprpc.NewLoopInSwap := fun _ _ => Fail unavailable
|}.

Definition amountClient (minAmt maxAmt fee : Z) : grpcSwapServerClient :=
  {| server := amountServer minAmt maxAmt fee; conn := None |}.

(** A world like [pinnedWorld] where no dial succeeds. *)
Definition noDialWorld : World := {|
  time_Now := time_Now pinnedWorld;
  file := file pinnedWorld;
  AppendCertsFromPEM := AppendCertsFromPEM pinnedWorld;
  dialError := fun _ _ => Some (externalError "no transport security set");
  NewSwapServerClient := NewSwapServerClient pinnedWorld
|}.

(** Sixty-six hexadecimal digits of both cases. *)
Definition hexMixedCase : string :=
  "02FFffFFffFFffFFffFFffFFffFFffFFffFFffFFffFFffFFffFFffFFffFFffAbCd".

(** A service that answers like [sampleServer], five seconds after each
    call. *)
Definition slowService (key : bytes) (dest : string) : runtime.Service := {|
  runtime.LoopOutTerms := looprpc.LoopOutTerms (sampleServer key dest)
                            context.Background;
  runtime.LoopOutQuote := looprpc.LoopOutQuote (sampleServer key dest)
                            context.Background;
  runtime.LoopInTerms := looprpc.LoopInTerms (sampleServer key dest)
                           context.Background;
  runtime.LoopInQuote := looprpc.LoopInQuote (sampleServer key dest)
                           context.Background;
  runtime.NewLoopOutSwap := looprpc.NewLoopOutSwap (sampleServer key dest)
                              context.Background;
  runtime.NewLoopInSwap := looprpc.NewLoopInSwap (sampleServer key dest)
                             context.Background;
  runtime.latency := fun _ => 5 * Second
|}.

(** The global call timeout of the samples. *)
Definition sampleTimeout : Duration := 4 * Second.

(** ** Arrays and [copy] *)

Lemma zero_array_length (n : nat) : List.length (zero_array n) = n.
Proof. apply repeat_length. Qed.

Lemma copy_length (dst src : bytes) :
  List.length (copy dst src) = List.length dst.
Proof.
  unfold copy.
  rewrite length_app, length_firstn, length_skipn. lia.
Qed.

(** A source as long as the array replaces it whole. *)
Lemma copy_same_length (dst src : bytes) :
  List.length src = List.length dst -> copy dst src = src.
Proof.
  intros Hlen. unfold copy.
  rewrite <- Hlen, firstn_all, Hlen, skipn_all.
  apply app_nil_r.
Qed.

(** A longer source is cut to the length of the array. *)
Lemma copy_longer (dst src : bytes) :
  (List.length dst <= List.length src)%nat ->
  copy dst src = firstn (List.length dst) src.
Proof.
  intros Hlen. unfold copy.
  rewrite skipn_all2 by exact Hlen.
  apply app_nil_r.
Qed.

(** A shorter source leaves the end of the array as it was. *)
Lemma copy_shorter (dst src : bytes) :
  (List.length src <= List.length dst)%nat ->
  copy dst src = src ++ skipn (List.length src) dst.
Proof.
  intros Hlen. unfold copy.
  rewrite firstn_all2 by exact Hlen.
  reflexivity.
Qed.

Lemma copy_33 (key : bytes) :
  List.length key = 33%nat -> copy (zero_array 33) key = key.
Proof.
  intros Hlen. apply copy_same_length.
  rewrite zero_array_length. exact Hlen.
Qed.

Example copy_short_source :
  copy (zero_array 4) [x01; x02] = [x01; x02; x00; x00].
Proof. reflexivity. Qed.

Example copy_long_source :
  copy (zero_array 2) [x01; x02; x03] = [x01; x02].
Proof. reflexivity. Qed.

(** An amount above the largest [int64] wraps to a negative one. *)
Example to_int64_wraps : to_int64 (2 ^ 64 - 1) = -1.
Proof. reflexivity. Qed.

Example to_uint64_wraps : to_uint64 (-1) = 2 ^ 64 - 1.
Proof. reflexivity. Qed.

(** ** Deadlines *)

Lemma WithDeadline_deadline (parent : context.Context) (d : Time) :
  context.Deadline (context.WithDeadline parent d)
  = Some (stricter (context.Deadline parent) d).
Proof.
  unfold context.WithDeadline, stricter.
  destruct (context.Deadline parent) as [cur|] eqn:Hcur; [|reflexivity].
  destruct (Z.ltb_spec cur d) as [Hlt|Hge]; cbn [context.Deadline].
  - rewrite Hcur. f_equal. lia.
  - f_equal. lia.
Qed.

Lemma rpcCtx_deadline (w : World) (timeout : Duration)
  (ctx : context.Context) :
  context.Deadline (rpcCtx w timeout ctx)
  = Some (stricter (context.Deadline ctx) (Add (time_Now w) timeout)).
Proof. apply WithDeadline_deadline. Qed.

Lemma stricter_le_global (caller : option Time) (global : Time) :
  stricter caller global <= global.
Proof. destruct caller; cbn [stricter]; lia. Qed.

Lemma stricter_le_caller (d global : Time) :
  stricter (Some d) global <= d.
Proof. cbn [stricter]. lia. Qed.

(** A context is done from its deadline on. *)
Lemma Err_after_deadline (ctx : context.Context) (d t : Time) :
  context.Deadline ctx = Some d -> d <= t ->
  context.Err ctx t = Some context.DeadlineExceeded.
Proof.
  intros Hd Hle. unfold context.Err. rewrite Hd.
  destruct (Z.leb_spec d t); [reflexivity | lia].
Qed.

Example WithTimeout_keeps_earlier_deadline :
  context.WithTimeout 1000 {| context.Deadline := Some 1500 |} 4000
  = {| context.Deadline := Some 1500 |}.
Proof. reflexivity. Qed.

Example WithTimeout_shortens_later_deadline :
  context.WithTimeout 1000 {| context.Deadline := Some 9000 |} 4000
  = {| context.Deadline := Some 5000 |}.
Proof. reflexivity. Qed.

Example WithTimeout_of_background :
  context.WithTimeout 1000 context.Background 4000
  = {| context.Deadline := Some 5000 |}.
Proof. reflexivity. Qed.

(** ** Hexadecimal decoding *)

Example DecodeString_mixed_case :
  hex.DecodeString "02fF0a" = ([x02; xff; x0a], None).
Proof. reflexivity. Qed.

Example DecodeString_bad_digit :
  hex.DecodeString "02ff0G"
  = ([x02; xff], Some (InvalidByteError "G"%byte)).
Proof. reflexivity. Qed.

Example DecodeString_odd_length :
  hex.DecodeString "02ff0" = ([x02; xff], Some ErrLength).
Proof. reflexivity. Qed.

Example InvalidByteError_text :
  Error (InvalidByteError "G"%byte)
  = "encoding/hex: invalid byte: U+0047 'G'".
Proof. reflexivity. Qed.

(** Induction on byte slices two bytes at a time, the way [hex.Decode]
    reads them. *)
Lemma bytes_pair_ind (Q : bytes -> Prop) :
  Q [] -> (forall c, Q [c]) ->
  (forall c1 c2 rest, Q rest -> Q (c1 :: c2 :: rest)) ->
  forall src, Q src.
Proof.
  intros Hnil Hone Hstep.
  assert (Hboth : forall src, Q src /\ forall c, Q (c :: src)).
  { induction src as [|c src [IH1 IH2]].
    - split; [exact Hnil | exact Hone].
    - split; [apply IH2 | intros c0; apply Hstep; exact IH1]. }
  intros src. apply Hboth.
Qed.

Lemma Decode_error (src out : bytes) (e : error) :
  hex.Decode src = (out, Some e) -> DecodeError e.
Proof.
  revert out. induction src as [|c|c1 c2 rest IH] using bytes_pair_ind;
    intros out H; cbn [hex.Decode] in H.
  - discriminate.
  - destruct (hex.fromHexChar c); inversion H; subst;
      [left; reflexivity | right; eexists; reflexivity].
  - destruct (hex.fromHexChar c1);
      [|inversion H; subst; right; eexists; reflexivity].
    destruct (hex.fromHexChar c2);
      [|inversion H; subst; right; eexists; reflexivity].
    destruct (hex.Decode rest) as [out' err'].
    inversion H; subst. eapply IH. reflexivity.
Qed.

Lemma DecodeString_error (s : string) (out : bytes) (e : error) :
  hex.DecodeString s = (out, Some e) -> DecodeError e.
Proof. apply Decode_error. Qed.

(** Each byte comes back from its two digits. *)
Lemma Decode_Encode_byte (v : byte) (rest : bytes) :
  hex.Decode (hex.hexdigit (Z.shiftr (Z_of_byte v) 4)
              :: hex.hexdigit (Z.land (Z_of_byte v) 15) :: rest)
  = (v :: fst (hex.Decode rest), snd (hex.Decode rest)).
Proof.
  destruct (hex.Decode rest) as [out err] eqn:Hrest.
  cbn [fst snd].
  destruct v; cbn [hex.Decode]; rewrite Hrest; reflexivity.
Qed.

Lemma Decode_Encode (b : bytes) : hex.Decode (hex.Encode b) = (b, None).
Proof.
  induction b as [|v b IH]; [reflexivity|].
  cbn [hex.Encode]. rewrite Decode_Encode_byte, IH. reflexivity.
Qed.

Lemma bytes_of_string_of_bytes (b : bytes) :
  bytes_of_string (string_of_bytes b) = b.
Proof.
  unfold bytes_of_string, string_of_bytes.
  rewrite list_ascii_of_string_of_list_ascii, map_map.
  induction b as [|v b IH]; cbn [List.map]; [reflexivity|].
  rewrite byte_of_ascii_of_byte, IH. reflexivity.
Qed.

(** A byte string of any length round-trips through its hexadecimal
    form. *)
Lemma DecodeString_EncodeToString (b : bytes) :
  hex.DecodeString (hex.EncodeToString b) = (b, None).
Proof.
  unfold hex.DecodeString, hex.EncodeToString.
  rewrite bytes_of_string_of_bytes. apply Decode_Encode.
Qed.

(** ** What [btcec.ParsePubKey] accepts *)

Lemma Exp_pos_range (x : Z) (y : positive) (m : Z) :
  0 < m -> 0 <= btcec.Exp_pos x y m < m.
Proof.
  intros Hm. destruct y; cbn [btcec.Exp_pos]; apply Z.mod_pos_bound; exact Hm.
Qed.

Lemma Exp_range (x y m : Z) : 0 < m -> 0 <= btcec.Exp x y m < m.
Proof.
  intros Hm. destruct y; cbn [btcec.Exp];
    [apply Z.mod_pos_bound; exact Hm | apply Exp_pos_range; exact Hm
    | apply Z.mod_pos_bound; exact Hm].
Qed.

Lemma Z_of_byte_nonneg (b : byte) : 0 <= Z_of_byte b.
Proof. apply N2Z.is_nonneg. Qed.

Lemma SetBytes_nonneg (b : bytes) : 0 <= btcec.SetBytes b.
Proof.
  unfold btcec.SetBytes.
  assert (Hacc : forall acc, 0 <= acc ->
            0 <= fold_left (fun a v => a * 256 + Z_of_byte v) b acc).
  { induction b as [|v b IH]; intros acc Hacc; cbn [fold_left];
      [exact Hacc|].
    apply IH. pose proof (Z_of_byte_nonneg v). lia. }
  apply Hacc. lia.
Qed.

Lemma isOdd_odd (a : Z) : btcec.isOdd a = Z.odd a.
Proof. apply Z.bit0_odd. Qed.

(** The format byte of a compressed key is 2 or 3, by the parity bit. *)
Lemma compressed_format_byte (b : byte) :
  Z.land (Z_of_byte b) 254 = btcec.pubkeyCompressed ->
  Z_of_byte b = 2 + (if Z.land (Z_of_byte b) 1 =? 1 then 1 else 0).
Proof.
  destruct b; vm_compute; intros H; solve [reflexivity | discriminate H].
Qed.

(** What [decompressPoint] returns squares to [x^3 + B], has the parity
    asked for, and lies in the field. *)
Lemma decompressPoint_sound (curve : btcec.KoblitzCurve) (x : Z)
  (ybit : bool) (y : Z) (err : option error) :
  0 < btcec.P curve ->
  btcec.decompressPoint curve x ybit = (Some y, err) ->
  (y * y) mod btcec.P curve = (x * x * x + btcec.B curve) mod btcec.P curve
  /\ btcec.isOdd y = ybit
  /\ 0 <= y < btcec.P curve.
Proof.
  intros HP. unfold btcec.decompressPoint.
  set (x3 := (x * x * x + btcec.B curve) mod btcec.P curve).
  set (y0 := btcec.Exp x3 (btcec.QPlus1Div4 curve) (btcec.P curve)).
  pose proof (Exp_range x3 (btcec.QPlus1Div4 curve) (btcec.P curve) HP)
    as Hy0. fold y0 in Hy0.
  set (y1 := if negb (Bool.eqb ybit (btcec.isOdd y0))
             then (btcec.P curve - y0) mod btcec.P curve else y0).
  assert (Hy1 : 0 <= y1 < btcec.P curve).
  { unfold y1. destruct (negb _); [apply Z.mod_pos_bound; exact HP | lia]. }
  destruct (Z.eqb_spec ((y1 * y1) mod btcec.P curve) x3) as [Hsq|Hsq];
    cbn [negb]; [|discriminate].
  destruct (Bool.eqb ybit (btcec.isOdd y1)) eqn:Hpar; cbn [negb];
    [|discriminate].
  intros H. inversion H; subst y.
  apply Bool.eqb_prop in Hpar.
  split; [exact Hsq|]. split; [symmetry; exact Hpar | exact Hy1].
Qed.

(** A point [checkPoint] lets through lies below [P] and on the curve. *)
Lemma checkPoint_sound (curve : btcec.KoblitzCurve) (x y : Z)
  (pk : btcec.PublicKey) (err : option error) :
  btcec.checkPoint curve x y = (Some pk, err) ->
  btcec.X pk = x /\ btcec.Y pk = y
  /\ x < btcec.P curve /\ y < btcec.P curve
  /\ btcec.IsOnCurve curve x y = true.
Proof.
  unfold btcec.checkPoint.
  destruct (Z.leb_spec (btcec.P curve) x) as [Hx|Hx]; [discriminate|].
  destruct (Z.leb_spec (btcec.P curve) y) as [Hy|Hy]; [discriminate|].
  destruct (btcec.IsOnCurve curve x y) eqn:Hon; cbn [negb]; [|discriminate].
  intros H. inversion H; subst pk. cbn [btcec.X btcec.Y].
  repeat split; assumption.
Qed.

Lemma cube_mod (x p c : Z) :
  (x mod p * (x mod p) * (x mod p) + c) mod p = (x * x * x + c) mod p.
Proof.
  rewrite <- (Zplus_mod_idemp_l (x * x * x)).
  rewrite <- (Zplus_mod_idemp_l (x mod p * (x mod p) * (x mod p))).
  f_equal. f_equal.
  rewrite Zmult_mod_idemp_r, <- Z.mul_assoc, Zmult_mod_idemp_l.
  rewrite Z.mul_comm, <- Z.mul_assoc, Zmult_mod_idemp_l.
  f_equal. ring.
Qed.

(** A key of 33 bytes that [btcec.ParsePubKey] accepts has the shape of a
    compressed key: a format byte 2 or 3 by the parity of the parsed [y],
    then the parsed [x] in 32 bytes. The parsed [y] lies in the field, and
    with [x] taken modulo [P] it satisfies the equation of the curve; that
    [x] itself lies below [P] is not tested. *)
Lemma ParsePubKey_compressed_sound (key : bytes) (pk : btcec.PublicKey)
  (err : option error) :
  List.length key = 33%nat ->
  btcec.ParsePubKey key btcec.S256 = (Some pk, err) ->
  on_secp256k1 (btcec.X pk mod btcec.P btcec.S256) (btcec.Y pk)
  /\ compressed_form (btcec.X pk) (btcec.Y pk) key.
Proof.
  intros Hlen. unfold btcec.ParsePubKey.
  destruct key as [|b0 rest]; [discriminate|].
  rewrite Hlen. change (Z.of_nat 33 =? btcec.PubKeyBytesLenUncompressed)
    with false. change (Z.of_nat 33 =? btcec.PubKeyBytesLenCompressed)
    with true. cbv iota.
  destruct (Z.eqb_spec (Z.land (Z_of_byte b0) 254) btcec.pubkeyCompressed)
    as [Hfmt|Hfmt]; cbn [negb]; [|discriminate].
  change (skipn 1 (b0 :: rest)) with rest.
  assert (Hrest : List.length rest = 32%nat) by (cbn in Hlen; lia).
  rewrite firstn_all2 by lia.
  destruct (btcec.decompressPoint btcec.S256 (btcec.SetBytes rest)
              (Z.land (Z_of_byte b0) 1 =? 1)) as [[y|] derr] eqn:Hdec;
    [|discriminate].
  intros Hpk. inversion Hpk; subst pk. cbn [btcec.X btcec.Y].
  apply decompressPoint_sound in Hdec; [|reflexivity].
  destruct Hdec as (Hsq & Hpar & Hy).
  split.
  - unfold on_secp256k1.
    pose proof (Z.mod_pos_bound (btcec.SetBytes rest) (btcec.P btcec.S256)
                  eq_refl) as Hx.
    change (btcec.B btcec.S256) with 7 in Hsq.
    rewrite cube_mod.
    repeat split; solve [apply Hx | apply Hy | exact Hsq].
  - exists b0, rest. repeat split; [exact Hrest|].
    rewrite (compressed_format_byte b0 Hfmt), <- Hpar, isOdd_odd.
    reflexivity.
Qed.

(** The base point is accepted, with its two coordinates. *)
Example ParsePubKey_base_point :
  btcec.ParsePubKey keyG btcec.S256
  = (Some {| btcec.Curve := btcec.S256;
             btcec.X := btcec.Gx btcec.S256;
             btcec.Y := btcec.Gy btcec.S256 |}, None).
Proof. vm_compute. reflexivity. Qed.

(** A compressed key whose [x] is not below the field prime is accepted
    when [x] modulo the prime is the abscissa of a point. *)
Example ParsePubKey_x_not_below_P :
  snd (btcec.ParsePubKey keyAboveP btcec.S256) = None
  /\ btcec.SetBytes (tl keyAboveP) = btcec.P btcec.S256 + 1.
Proof. vm_compute. split; reflexivity. Qed.

(** Parsed as it came, the base point followed by one more byte is refused
    for its length. *)
Example ParsePubKey_wrong_length :
  btcec.ParsePubKey (keyG ++ [x00]) btcec.S256
  = (None, Some (errorString "invalid pub key length 34")).
Proof. vm_compute. reflexivity. Qed.

(** ** What each operation returns and what it sends *)

Ltac run op := unfold op, invoke, bind, emit, ret; cbn [fst snd].

Section Runs.

Variable w : World.
Variable globalCallTimeout : Duration.
Variable s : grpcSwapServerClient.
Variable ctx : context.Context.
Variable tr : trace.

Let rctx := rpcCtx w globalCallTimeout ctx.

Lemma GetLoopOutTerms_sends :
  snd (GetLoopOutTerms w globalCallTimeout s ctx tr)
  = tr ++ [Invoke rctx
             (looprpc.CallLoopOutTerms
                looprpc.Build_ServerLoopOutTermsRequest)].
Proof.
  run GetLoopOutTerms.
  destruct (looprpc.LoopOutTerms _ _ _); reflexivity.
Qed.

Lemma GetLoopInTerms_sends :
  snd (GetLoopInTerms w globalCallTimeout s ctx tr)
  = tr ++ [Invoke rctx
             (looprpc.CallLoopInTerms
                looprpc.Build_ServerLoopInTermsRequest)].
Proof.
  run GetLoopInTerms.
  destruct (looprpc.LoopInTerms _ _ _); reflexivity.
Qed.

Lemma GetLoopInQuote_sends (amt : Z) :
  snd (GetLoopInQuote w globalCallTimeout s ctx amt tr)
  = tr ++ [Invoke rctx (looprpc.CallLoopInQuote (loopInQuoteRequest amt))].
Proof.
  run GetLoopInQuote.
  destruct (looprpc.LoopInQuote _ _ _); reflexivity.
Qed.

Lemma GetLoopOutQuote_sends (amt : Z) (deadline : Time) :
  snd (GetLoopOutQuote w globalCallTimeout s ctx amt deadline tr)
  = tr ++ [Invoke rctx
             (looprpc.CallLoopOutQuote (loopOutQuoteRequest amt deadline))].
Proof.
  run GetLoopOutQuote.
  destruct (looprpc.LoopOutQuote _ _ _) as [quoteResp|err]; [|reflexivity].
  destruct (hex.DecodeString _) as [dest [err|]]; [reflexivity|].
  destruct (negb _); reflexivity.
Qed.

Lemma NewLoopOutSwap_sends (swapHash : bytes) (amount : Z)
  (receiverKey : bytes) (deadline : Time) :
  snd (NewLoopOutSwap w globalCallTimeout s ctx swapHash amount
         receiverKey deadline tr)
  = tr ++ [Invoke rctx
             (looprpc.CallNewLoopOutSwap
                (loopOutRequest swapHash amount receiverKey deadline))].
Proof.
  run NewLoopOutSwap.
  destruct (looprpc.NewLoopOutSwap _ _ _) as [swapResp|err]; [|reflexivity].
  destruct (btcec.ParsePubKey _ _) as [pk [err|]]; reflexivity.
Qed.

Lemma NewLoopInSwap_sends (swapHash : bytes) (amount : Z)
  (senderKey : bytes) (swapInvoice : string) :
  snd (NewLoopInSwap w globalCallTimeout s ctx swapHash amount
         senderKey swapInvoice tr)
  = tr ++ [Invoke rctx
             (looprpc.CallNewLoopInSwap
                (loopInRequest swapHash amount senderKey swapInvoice))].
Proof.
  run NewLoopInSwap.
  destruct (looprpc.NewLoopInSwap _ _ _) as [swapResp|err]; [|reflexivity].
  destruct (btcec.ParsePubKey _ _) as [pk [err|]]; reflexivity.
Qed.

(** A creation call whose RPC succeeds returns what the validation of the
    server's key decides. *)
Lemma NewLoopOutSwap_returns (swapHash : bytes) (amount : Z)
  (receiverKey : bytes) (deadline : Time)
  (swapResp : looprpc.ServerLoopOutResponse.t) :
  looprpc.NewLoopOutSwap (server s) rctx
    (loopOutRequest swapHash amount receiverKey deadline) = Reply swapResp ->
  fst (NewLoopOutSwap w globalCallTimeout s ctx swapHash amount
         receiverKey deadline tr)
  = match validateServerKey
            (looprpc.ServerLoopOutResponse.SenderKey swapResp) with
    | Some err => (None, Some (fmt_Errorf_v "invalid sender key: " err))
    | None =>
        (Some {|
           newLoopOutResponse.swapInvoice :=
             looprpc.ServerLoopOutResponse.SwapInvoice swapResp;
           newLoopOutResponse.prepayInvoice :=
             looprpc.ServerLoopOutResponse.PrepayInvoice swapResp;
           newLoopOutResponse.senderKey :=
             copy (zero_array 33)
               (looprpc.ServerLoopOutResponse.SenderKey swapResp);
           newLoopOutResponse.expiry :=
             looprpc.ServerLoopOutResponse.Expiry swapResp |}, None)
    end.
Proof.
  intros Hrpc. unfold rctx, rpcCtx, loopOutRequest in Hrpc.
  run NewLoopOutSwap. rewrite Hrpc. unfold validateServerKey.
  destruct (btcec.ParsePubKey _ _) as [pk [err|]]; reflexivity.
Qed.

Lemma NewLoopInSwap_returns (swapHash : bytes) (amount : Z)
  (senderKey : bytes) (swapInvoice : string)
  (swapResp : looprpc.ServerLoopInResponse.t) :
  looprpc.NewLoopInSwap (server s) rctx
    (loopInRequest swapHash amount senderKey swapInvoice) = Reply swapResp ->
  fst (NewLoopInSwap w globalCallTimeout s ctx swapHash amount
         senderKey swapInvoice tr)
  = match validateServerKey
            (looprpc.ServerLoopInResponse.ReceiverKey swapResp) with
    | Some err => (None, Some (fmt_Errorf_v "invalid sender key: " err))
    | None =>
        (Some {|
           newLoopInResponse.receiverKey :=
             copy (zero_array 33)
               (looprpc.ServerLoopInResponse.ReceiverKey swapResp);
           newLoopInResponse.expiry :=
             looprpc.ServerLoopInResponse.Expiry swapResp |}, None)
    end.
Proof.
  intros Hrpc. unfold rctx, rpcCtx, loopInRequest in Hrpc.
  run NewLoopInSwap. rewrite Hrpc. unfold validateServerKey.
  destruct (btcec.ParsePubKey _ _) as [pk [err|]]; reflexivity.
Qed.

(** A quote call whose RPC succeeds returns what the decoding of the
    payment destination decides. *)
Lemma GetLoopOutQuote_returns (amt : Z) (deadline : Time)
  (quoteResp : looprpc.ServerLoopOutQuote.t) :
  looprpc.LoopOutQuote (server s) rctx (loopOutQuoteRequest amt deadline)
  = Reply quoteResp ->
  fst (GetLoopOutQuote w globalCallTimeout s ctx amt deadline tr)
  = match hex.DecodeString
            (looprpc.ServerLoopOutQuote.SwapPaymentDest quoteResp) with
    | (_, Some err) => (None, Some err)
    | (dest, None) =>
        if Z.of_nat (List.length dest) =? 33 then
          (Some {|
             LoopOutQuote.PrepayAmount :=
               to_int64 (looprpc.ServerLoopOutQuote.PrepayAmt quoteResp);
             LoopOutQuote.SwapFee :=
               to_int64 (looprpc.ServerLoopOutQuote.SwapFee quoteResp);
             LoopOutQuote.CltvDelta :=
               looprpc.ServerLoopOutQuote.CltvDelta quoteResp;
             LoopOutQuote.SwapPaymentDest := copy (zero_array 33) dest |},
           None)
        else (None, Some (errors_New "invalid payment dest"))
    end.
Proof.
  intros Hrpc. unfold rctx, rpcCtx, loopOutQuoteRequest in Hrpc.
  run GetLoopOutQuote. rewrite Hrpc.
  destruct (hex.DecodeString _) as [dest [err|]]; [reflexivity|].
  destruct (Z.of_nat (List.length dest) =? 33); reflexivity.
Qed.

End Runs.

(** For a key of 33 bytes the validation is [btcec.ParsePubKey] on the key
    itself: it accepts exactly the keys the parser accepts. *)
Lemma validateServerKey_33 (key : bytes) :
  List.length key = 33%nat ->
  validateServerKey key = snd (btcec.ParsePubKey key btcec.S256).
Proof.
  intros Hlen. unfold validateServerKey. rewrite copy_33 by exact Hlen.
  reflexivity.
Qed.

(** For a longer key the validation looks at the first 33 bytes only. *)
Lemma validateServerKey_longer (key : bytes) :
  (33 <= List.length key)%nat ->
  validateServerKey key = validateServerKey (firstn 33 key).
Proof.
  intros Hlen. unfold validateServerKey.
  rewrite (copy_33 (firstn 33 key)) by (rewrite length_firstn; lia).
  rewrite copy_longer by (rewrite zero_array_length; exact Hlen).
  rewrite zero_array_length. reflexivity.
Qed.

Lemma skipn_zero_array (n m : nat) :
  skipn n (zero_array m) = zero_array (m - n).
Proof.
  unfold zero_array. revert m.
  induction n as [|n IH]; intros m.
  - rewrite Nat.sub_0_r. reflexivity.
  - destruct m as [|m]; [reflexivity|]. cbn [repeat skipn Nat.sub].
    apply IH.
Qed.

(** For a shorter key the validation reads the missing bytes as zero. *)
Lemma validateServerKey_shorter (key : bytes) :
  (List.length key <= 33)%nat ->
  validateServerKey key
  = validateServerKey (key ++ repeat x00 (33 - List.length key)).
Proof.
  intros Hlen. unfold validateServerKey.
  rewrite (copy_33 (key ++ _))
    by (rewrite length_app, repeat_length; lia).
  rewrite copy_shorter by (rewrite zero_array_length; exact Hlen).
  rewrite skipn_zero_array. reflexivity.
Qed.

(** ** Validation of the server's key by the creation calls *)

(** C1, at inputs where the code departs from it. The creation calls do not
    look at the length of the key the server returned. A reply of
    [NewLoopOutSwap] whose sender key has 34 bytes, a valid compressed key
    followed by one more byte, is accepted, and the response carries the
    first 33 bytes. A reply of [NewLoopInSwap] whose receiver key has
    32 bytes is accepted too when the missing byte, read as zero, completes
    a valid key. *)
Theorem server_key_length_is_not_checked :
  List.length (keyG ++ [x00]) = 34%nat
  /\ fst (NewLoopOutSwap (sampleWorld (keyG ++ [x00]) "") sampleTimeout
            (sampleClient (keyG ++ [x00]) "") context.Background
            (repeat x01 32) 100000 keyG 0 [])
     = (Some {| newLoopOutResponse.swapInvoice := "lnbc-swap";
                newLoopOutResponse.prepayInvoice := "lnbc-prepay";
                newLoopOutResponse.senderKey := keyG;
                newLoopOutResponse.expiry := 600000 |}, None)
  /\ List.length keyZ32 = 32%nat
  /\ fst (NewLoopInSwap (sampleWorld keyZ32 "") sampleTimeout
            (sampleClient keyZ32 "") context.Background
            (repeat x01 32) 100000 keyG "lnbc-in" [])
     = (Some {| newLoopInResponse.receiverKey := keyZ;
                newLoopInResponse.expiry := 600000 |}, None).
Proof. vm_compute. repeat split. Qed.

(** When the RPC of a creation call succeeds and the validation refuses
    the key, that is, when the parsing of the 33-byte array made from the
    key fails, the call returns no response and an error that wraps the
    parser's refusal. *)
Lemma refused_server_key_is_an_error
  (w : World) (globalCallTimeout : Duration) (s : grpcSwapServerClient)
  (ctx : context.Context) (tr : trace) (swapHash : bytes) (amount : Z)
  (ownKey : bytes) (deadline : Time) (swapInvoice : string) :
  (forall swapResp cause,
     looprpc.NewLoopOutSwap (server s) (rpcCtx w globalCallTimeout ctx)
       (loopOutRequest swapHash amount ownKey deadline) = Reply swapResp ->
     validateServerKey (looprpc.ServerLoopOutResponse.SenderKey swapResp)
     = Some cause ->
     exists e,
       fst (NewLoopOutSwap w globalCallTimeout s ctx swapHash amount ownKey
              deadline tr) = (None, Some e)
       /\ InvalidServerKeyError e)
  /\
  (forall swapResp cause,
     looprpc.NewLoopInSwap (server s) (rpcCtx w globalCallTimeout ctx)
       (loopInRequest swapHash amount ownKey swapInvoice) = Reply swapResp ->
     validateServerKey (looprpc.ServerLoopInResponse.ReceiverKey swapResp)
     = Some cause ->
     exists e,
       fst (NewLoopInSwap w globalCallTimeout s ctx swapHash amount ownKey
              swapInvoice tr) = (None, Some e)
       /\ InvalidServerKeyError e).
Proof.
  split; intros swapResp cause Hrpc Hkey.
  - rewrite (NewLoopOutSwap_returns _ _ _ _ _ _ _ _ _ _ Hrpc), Hkey.
    eexists. split; [reflexivity|].
    eexists; exists cause. split; [exact Hkey | reflexivity].
  - rewrite (NewLoopInSwap_returns _ _ _ _ _ _ _ _ _ _ Hrpc), Hkey.
    eexists. split; [reflexivity|].
    eexists; exists cause. split; [exact Hkey | reflexivity].
Qed.

(** For a key of 33 bytes the array is the key: when the key the server
    returned fails parsing, both creation calls return the error. *)
Lemma invalid_33_byte_server_key_is_an_error
  (w : World) (globalCallTimeout : Duration) (s : grpcSwapServerClient)
  (ctx : context.Context) (tr : trace) (swapHash : bytes) (amount : Z)
  (ownKey : bytes) (deadline : Time) (swapInvoice : string) :
  (forall swapResp cause,
     looprpc.NewLoopOutSwap (server s) (rpcCtx w globalCallTimeout ctx)
       (loopOutRequest swapHash amount ownKey deadline) = Reply swapResp ->
     List.length (looprpc.ServerLoopOutResponse.SenderKey swapResp)
     = 33%nat ->
     snd (btcec.ParsePubKey
            (looprpc.ServerLoopOutResponse.SenderKey swapResp) btcec.S256)
     = Some cause ->
     exists e,
       fst (NewLoopOutSwap w globalCallTimeout s ctx swapHash amount ownKey
              deadline tr) = (None, Some e)
       /\ InvalidServerKeyError e)
  /\
  (forall swapResp cause,
     looprpc.NewLoopInSwap (server s) (rpcCtx w globalCallTimeout ctx)
       (loopInRequest swapHash amount ownKey swapInvoice) = Reply swapResp ->
     List.length (looprpc.ServerLoopInResponse.ReceiverKey swapResp)
     = 33%nat ->
     snd (btcec.ParsePubKey
            (looprpc.ServerLoopInResponse.ReceiverKey swapResp) btcec.S256)
     = Some cause ->
     exists e,
       fst (NewLoopInSwap w globalCallTimeout s ctx swapHash amount ownKey
              swapInvoice tr) = (None, Some e)
       /\ InvalidServerKeyError e).
Proof.
  destruct (refused_server_key_is_an_error w globalCallTimeout s ctx tr
              swapHash amount ownKey deadline swapInvoice) as [Hout Hin].
  split; intros swapResp cause Hrpc Hlen Hparse.
  - apply (Hout swapResp cause Hrpc).
    rewrite validateServerKey_33 by exact Hlen. exact Hparse.
  - apply (Hin swapResp cause Hrpc).
    rewrite validateServerKey_33 by exact Hlen. exact Hparse.
Qed.

(** C2, at inputs where the code departs from it. The key the server
    returned is not what the creation calls parse: they parse the 33-byte
    array the key was copied into. The sender key of 34 bytes, the base
    point followed by one byte, fails the parsing for its length, and
    [NewLoopOutSwap] returns a response and no error; the receiver key of
    32 bytes fails the parsing for its length, and [NewLoopInSwap] returns
    a response and no error. *)
Theorem unparsable_server_key_is_not_an_error :
  snd (btcec.ParsePubKey (keyG ++ [x00]) btcec.S256)
  = Some (errorString "invalid pub key length 34")
  /\ fst (NewLoopOutSwap (sampleWorld (keyG ++ [x00]) "") sampleTimeout
            (sampleClient (keyG ++ [x00]) "") context.Background
            (repeat x01 32) 100000 keyG 0 [])
     = (Some {| newLoopOutResponse.swapInvoice := "lnbc-swap";
                newLoopOutResponse.prepayInvoice := "lnbc-prepay";
                newLoopOutResponse.senderKey := keyG;
                newLoopOutResponse.expiry := 600000 |}, None)
  /\ snd (btcec.ParsePubKey keyZ32 btcec.S256)
     = Some (errorString "invalid pub key length 32")
  /\ fst (NewLoopInSwap (sampleWorld keyZ32 "") sampleTimeout
            (sampleClient keyZ32 "") context.Background
            (repeat x01 32) 100000 keyG "lnbc-in" [])
     = (Some {| newLoopInResponse.receiverKey := keyZ;
                newLoopInResponse.expiry := 600000 |}, None).
Proof. vm_compute. repeat split. Qed.

(** C8. When the RPC of [NewLoopOutSwap] succeeds and the sender key the
    server returned is a compressed key, 33 bytes, that
    [btcec.ParsePubKey] accepts, the call returns no error and a response
    holding that key and the reply's swap invoice, prepay invoice and
    expiry as they came. *)
Theorem NewLoopOutSwap_valid_key_succeeds
  (w : World) (globalCallTimeout : Duration) (s : grpcSwapServerClient)
  (ctx : context.Context) (tr : trace) (swapHash : bytes) (amount : Z)
  (receiverKey : bytes) (deadline : Time)
  (swapResp : looprpc.ServerLoopOutResponse.t) (pk : btcec.PublicKey) :
  looprpc.NewLoopOutSwap (server s) (rpcCtx w globalCallTimeout ctx)
    (loopOutRequest swapHash amount receiverKey deadline) = Reply swapResp ->
  List.length (looprpc.ServerLoopOutResponse.SenderKey swapResp) = 33%nat ->
  btcec.ParsePubKey (looprpc.ServerLoopOutResponse.SenderKey swapResp)
    btcec.S256 = (Some pk, None) ->
  fst (NewLoopOutSwap w globalCallTimeout s ctx swapHash amount receiverKey
         deadline tr)
  = (Some {|
       newLoopOutResponse.swapInvoice :=
         looprpc.ServerLoopOutResponse.SwapInvoice swapResp;
       newLoopOutResponse.prepayInvoice :=
         looprpc.ServerLoopOutResponse.PrepayInvoice swapResp;
       newLoopOutResponse.senderKey :=
         looprpc.ServerLoopOutResponse.SenderKey swapResp;
       newLoopOutResponse.expiry :=
         looprpc.ServerLoopOutResponse.Expiry swapResp |}, None).
Proof.
  intros Hrpc Hlen Hparse.
  rewrite (NewLoopOutSwap_returns _ _ _ _ _ _ _ _ _ _ Hrpc).
  rewrite validateServerKey_33 by exact Hlen.
  rewrite Hparse. cbn [snd].
  rewrite copy_33 by exact Hlen. reflexivity.
Qed.

(** The server answers with the base point of the curve. *)
Lemma NewLoopOutSwap_valid_key_succeeds_witness :
  fst (NewLoopOutSwap (sampleWorld keyG "") sampleTimeout
         (sampleClient keyG "") context.Background
         (repeat x01 32) 100000 keyZ 0 [])
  = (Some {| newLoopOutResponse.swapInvoice := "lnbc-swap";
             newLoopOutResponse.prepayInvoice := "lnbc-prepay";
             newLoopOutResponse.senderKey := keyG;
             newLoopOutResponse.expiry := 600000 |}, None).
Proof.
  apply (NewLoopOutSwap_valid_key_succeeds
           (sampleWorld keyG "") sampleTimeout (sampleClient keyG "")
           context.Background [] (repeat x01 32) 100000 keyZ 0
           {| looprpc.ServerLoopOutResponse.SwapInvoice := "lnbc-swap";
              looprpc.ServerLoopOutResponse.PrepayInvoice := "lnbc-prepay";
              looprpc.ServerLoopOutResponse.SenderKey := keyG;
              looprpc.ServerLoopOutResponse.Expiry := 600000 |}
           {| btcec.Curve := btcec.S256;
              btcec.X := btcec.Gx btcec.S256;
              btcec.Y := btcec.Gy btcec.S256 |});
    [reflexivity | reflexivity | vm_compute; reflexivity].
Defined.

(** C10. When [NewLoopInSwap] refuses the receiver key, its error reads
    [invalid sender key: ] followed by the parser's refusal. It is the very
    error [NewLoopOutSwap] returns when it refuses the same bytes as a
    sender key, so the two failures read alike. *)
Theorem NewLoopInSwap_key_error_says_sender
  (w : World) (globalCallTimeout : Duration) (s : grpcSwapServerClient)
  (ctx : context.Context) (tr : trace) (swapHash : bytes) (amount : Z)
  (senderKey : bytes) (swapInvoice : string)
  (swapResp : looprpc.ServerLoopInResponse.t) (cause : error) :
  looprpc.NewLoopInSwap (server s) (rpcCtx w globalCallTimeout ctx)
    (loopInRequest swapHash amount senderKey swapInvoice) = Reply swapResp ->
  validateServerKey (looprpc.ServerLoopInResponse.ReceiverKey swapResp)
  = Some cause ->
  fst (NewLoopInSwap w globalCallTimeout s ctx swapHash amount senderKey
         swapInvoice tr)
  = (None,
     Some (errorString (String.append "invalid sender key: " (Error cause))))
  /\
  forall (s' : grpcSwapServerClient) (ctx' : context.Context) (tr' : trace)
         (swapHash' : bytes) (amount' : Z) (receiverKey' : bytes)
         (deadline' : Time) (outResp : looprpc.ServerLoopOutResponse.t),
    looprpc.NewLoopOutSwap (server s') (rpcCtx w globalCallTimeout ctx')
      (loopOutRequest swapHash' amount' receiverKey' deadline')
    = Reply outResp ->
    looprpc.ServerLoopOutResponse.SenderKey outResp
    = looprpc.ServerLoopInResponse.ReceiverKey swapResp ->
    snd (fst (NewLoopOutSwap w globalCallTimeout s' ctx' swapHash' amount'
                receiverKey' deadline' tr'))
    = snd (fst (NewLoopInSwap w globalCallTimeout s ctx swapHash amount
                  senderKey swapInvoice tr)).
Proof.
  intros Hrpc Hkey.
  assert (Hin : fst (NewLoopInSwap w globalCallTimeout s ctx swapHash amount
                       senderKey swapInvoice tr)
                = (None, Some (errorString
                     (String.append "invalid sender key: " (Error cause))))).
  { rewrite (NewLoopInSwap_returns _ _ _ _ _ _ _ _ _ _ Hrpc), Hkey.
    reflexivity. }
  split; [exact Hin|].
  intros s' ctx' tr' swapHash' amount' receiverKey' deadline' outResp
    Hrpc' Hsame.
  rewrite Hin, (NewLoopOutSwap_returns _ _ _ _ _ _ _ _ _ _ Hrpc'), Hsame, Hkey.
  reflexivity.
Qed.

(** The server answers [NewLoopInSwap] with [0x02] and 32 zero bytes, which
    is no point of the curve. *)
Lemma NewLoopInSwap_key_error_says_sender_witness :
  fst (NewLoopInSwap (sampleWorld key02 "") sampleTimeout
         (sampleClient key02 "") context.Background
         (repeat x01 32) 100000 keyG "lnbc-in" [])
  = (None, Some (errorString "invalid sender key: invalid square root")).
Proof.
  apply (NewLoopInSwap_key_error_says_sender
           (sampleWorld key02 "") sampleTimeout (sampleClient key02 "")
           context.Background [] (repeat x01 32) 100000 keyG "lnbc-in"
           {| looprpc.ServerLoopInResponse.ReceiverKey := key02;
              looprpc.ServerLoopInResponse.Expiry := 600000 |}
           (errorString "invalid square root"));
    [reflexivity | vm_compute; reflexivity].
Defined.

(** ** The payment destination of a quote *)

(** C3. When the RPC of [GetLoopOutQuote] succeeds, the payment
    destination of the reply is decoded from hexadecimal. A decoding error
    is returned as it is; a decoded length other than 33 gives the error
    [invalid payment dest]; otherwise the quote carries the 33 decoded
    bytes. *)
Theorem GetLoopOutQuote_decodes_payment_dest
  (w : World) (globalCallTimeout : Duration) (s : grpcSwapServerClient)
  (ctx : context.Context) (tr : trace) (amt : Z) (deadline : Time)
  (quoteResp : looprpc.ServerLoopOutQuote.t) :
  looprpc.LoopOutQuote (server s) (rpcCtx w globalCallTimeout ctx)
    (loopOutQuoteRequest amt deadline) = Reply quoteResp ->
  let res :=
    fst (GetLoopOutQuote w globalCallTimeout s ctx amt deadline tr) in
  let field := looprpc.ServerLoopOutQuote.SwapPaymentDest quoteResp in
  (forall partial err,
     hex.DecodeString field = (partial, Some err) ->
     DecodeError err /\ res = (None, Some err))
  /\
  (forall dest,
     hex.DecodeString field = (dest, None) ->
     List.length dest <> 33%nat ->
     exists e, InvalidPaymentDestinationError e /\ res = (None, Some e))
  /\
  (forall dest,
     hex.DecodeString field = (dest, None) ->
     List.length dest = 33%nat ->
     exists quote,
       res = (Some quote, None) /\ LoopOutQuote.SwapPaymentDest quote = dest).
Proof.
  intros Hrpc res field. subst res field.
  rewrite (GetLoopOutQuote_returns _ _ _ _ _ _ _ _ Hrpc).
  split; [|split].
  - intros partial err Hdec. rewrite Hdec.
    split; [eapply DecodeString_error; exact Hdec | reflexivity].
  - intros dest Hdec Hlen. rewrite Hdec.
    destruct (Z.eqb_spec (Z.of_nat (List.length dest)) 33) as [Heq|Hne];
      [lia|].
    eexists. split; reflexivity.
  - intros dest Hdec Hlen. rewrite Hdec, Hlen. cbn [Z.of_nat Z.eqb Pos.eqb].
    eexists. split; [reflexivity|].
    cbn [LoopOutQuote.SwapPaymentDest]. apply copy_33. exact Hlen.
Qed.

(** The server answers with a destination that is not hexadecimal, with
    one of two bytes, and with one of 33 bytes. *)
Lemma GetLoopOutQuote_decodes_payment_dest_witness :
  fst (GetLoopOutQuote (sampleWorld keyG "0g") sampleTimeout
         (sampleClient keyG "0g") context.Background 100000 0 [])
  = (None, Some (InvalidByteError "g"%byte))
  /\ (exists e,
        InvalidPaymentDestinationError e
        /\ fst (GetLoopOutQuote (sampleWorld keyG "0203") sampleTimeout
                  (sampleClient keyG "0203") context.Background 100000 0 [])
           = (None, Some e))
  /\ (exists quote,
        fst (GetLoopOutQuote (sampleWorld keyG hexKey02) sampleTimeout
               (sampleClient keyG hexKey02) context.Background 100000 0 [])
        = (Some quote, None)
        /\ LoopOutQuote.SwapPaymentDest quote = key02).
Proof.
  split; [|split].
  - apply (proj1 (GetLoopOutQuote_decodes_payment_dest
                    (sampleWorld keyG "0g") sampleTimeout
                    (sampleClient keyG "0g") context.Background []
                    100000 0
                    {| looprpc.ServerLoopOutQuote.PrepayAmt := 1337;
                       looprpc.ServerLoopOutQuote.SwapFee := 1000;
                       looprpc.ServerLoopOutQuote.CltvDelta := 20;
                       looprpc.ServerLoopOutQuote.SwapPaymentDest := "0g" |}
                    eq_refl) [] (InvalidByteError "g"%byte)).
    reflexivity.
  - apply (proj1 (proj2 (GetLoopOutQuote_decodes_payment_dest
                    (sampleWorld keyG "0203") sampleTimeout
                    (sampleClient keyG "0203") context.Background []
                    100000 0
                    {| looprpc.ServerLoopOutQuote.PrepayAmt := 1337;
                       looprpc.ServerLoopOutQuote.SwapFee := 1000;
                       looprpc.ServerLoopOutQuote.CltvDelta := 20;
                       looprpc.ServerLoopOutQuote.SwapPaymentDest := "0203" |}
                    eq_refl)) [x02; x03]);
      [reflexivity | cbn [List.length]; lia].
  - apply (proj2 (proj2 (GetLoopOutQuote_decodes_payment_dest
                    (sampleWorld keyG hexKey02) sampleTimeout
                    (sampleClient keyG hexKey02) context.Background []
                    100000 0
                    {| looprpc.ServerLoopOutQuote.PrepayAmt := 1337;
                       looprpc.ServerLoopOutQuote.SwapFee := 1000;
                       looprpc.ServerLoopOutQuote.CltvDelta := 20;
                       looprpc.ServerLoopOutQuote.SwapPaymentDest :=
                         hexKey02 |}
                    eq_refl)) key02);
      reflexivity.
Defined.

(** C4. [GetLoopOutQuote] does not ask whether the payment destination is
    a point of the curve: whenever the reply's destination decodes to 33
    bytes, whatever they are, the call succeeds and the quote carries these
    bytes as they are, next to the converted amounts and the delta. *)
Theorem GetLoopOutQuote_does_not_validate_dest
  (w : World) (globalCallTimeout : Duration) (s : grpcSwapServerClient)
  (ctx : context.Context) (tr : trace) (amt : Z) (deadline : Time)
  (quoteResp : looprpc.ServerLoopOutQuote.t) (dest : bytes) :
  looprpc.LoopOutQuote (server s) (rpcCtx w globalCallTimeout ctx)
    (loopOutQuoteRequest amt deadline) = Reply quoteResp ->
  hex.DecodeString (looprpc.ServerLoopOutQuote.SwapPaymentDest quoteResp)
  = (dest, None) ->
  List.length dest = 33%nat ->
  fst (GetLoopOutQuote w globalCallTimeout s ctx amt deadline tr)
  = (Some {|
       LoopOutQuote.PrepayAmount :=
         to_int64 (looprpc.ServerLoopOutQuote.PrepayAmt quoteResp);
       LoopOutQuote.SwapFee :=
         to_int64 (looprpc.ServerLoopOutQuote.SwapFee quoteResp);
       LoopOutQuote.CltvDelta :=
         looprpc.ServerLoopOutQuote.CltvDelta quoteResp;
       LoopOutQuote.SwapPaymentDest := dest |}, None).
Proof.
  intros Hrpc Hdec Hlen.
  rewrite (GetLoopOutQuote_returns _ _ _ _ _ _ _ _ Hrpc), Hdec, Hlen.
  cbn [Z.of_nat Z.eqb Pos.eqb].
  rewrite copy_33 by exact Hlen. reflexivity.
Qed.

(** The scenario of the specification: amount 100000, and a destination of
    [0x02] followed by 32 zero bytes, which [btcec.ParsePubKey] refuses and
    the creation calls would reject. *)
Lemma GetLoopOutQuote_does_not_validate_dest_witness :
  validateServerKey key02 = Some (errorString "invalid square root")
  /\ fst (GetLoopOutQuote (sampleWorld keyG hexKey02) sampleTimeout
            (sampleClient keyG hexKey02) context.Background 100000
            (1700000000 * Second) [])
     = (Some {| LoopOutQuote.PrepayAmount := 1337;
                LoopOutQuote.SwapFee := 1000;
                LoopOutQuote.CltvDelta := 20;
                LoopOutQuote.SwapPaymentDest := key02 |}, None).
Proof.
  split; [vm_compute; reflexivity|].
  apply (GetLoopOutQuote_does_not_validate_dest
           (sampleWorld keyG hexKey02) sampleTimeout
           (sampleClient keyG hexKey02) context.Background [] 100000
           (1700000000 * Second)
           {| looprpc.ServerLoopOutQuote.PrepayAmt := 1337;
              looprpc.ServerLoopOutQuote.SwapFee := 1000;
              looprpc.ServerLoopOutQuote.CltvDelta := 20;
              looprpc.ServerLoopOutQuote.SwapPaymentDest := hexKey02 |}
           key02);
    reflexivity.
Defined.

(** ** Results and errors of the six operations *)

Section Outcomes.

Variable w : World.
Variable globalCallTimeout : Duration.
Variable s : grpcSwapServerClient.
Variable ctx : context.Context.
Variable tr : trace.

Lemma GetLoopOutTerms_exactly_one :
  exactly_one (fst (GetLoopOutTerms w globalCallTimeout s ctx tr)) = true.
Proof.
  run GetLoopOutTerms.
  destruct (looprpc.LoopOutTerms _ _ _); reflexivity.
Qed.

Lemma GetLoopInTerms_exactly_one :
  exactly_one (fst (GetLoopInTerms w globalCallTimeout s ctx tr)) = true.
Proof.
  run GetLoopInTerms.
  destruct (looprpc.LoopInTerms _ _ _); reflexivity.
Qed.

Lemma GetLoopInQuote_exactly_one (amt : Z) :
  exactly_one (fst (GetLoopInQuote w globalCallTimeout s ctx amt tr)) = true.
Proof.
  run GetLoopInQuote.
  destruct (looprpc.LoopInQuote _ _ _); reflexivity.
Qed.

Lemma GetLoopOutQuote_exactly_one (amt : Z) (deadline : Time) :
  exactly_one
    (fst (GetLoopOutQuote w globalCallTimeout s ctx amt deadline tr)) = true.
Proof.
  run GetLoopOutQuote.
  destruct (looprpc.LoopOutQuote _ _ _) as [quoteResp|err]; [|reflexivity].
  destruct (hex.DecodeString _) as [dest [err|]]; [reflexivity|].
  destruct (negb _); reflexivity.
Qed.

Lemma NewLoopOutSwap_exactly_one (swapHash : bytes) (amount : Z)
  (receiverKey : bytes) (deadline : Time) :
  exactly_one
    (fst (NewLoopOutSwap w globalCallTimeout s ctx swapHash amount
            receiverKey deadline tr)) = true.
Proof.
  run NewLoopOutSwap.
  destruct (looprpc.NewLoopOutSwap _ _ _) as [swapResp|err]; [|reflexivity].
  destruct (btcec.ParsePubKey _ _) as [pk [err|]]; reflexivity.
Qed.

Lemma NewLoopInSwap_exactly_one (swapHash : bytes) (amount : Z)
  (senderKey : bytes) (swapInvoice : string) :
  exactly_one
    (fst (NewLoopInSwap w globalCallTimeout s ctx swapHash amount
            senderKey swapInvoice tr)) = true.
Proof.
  run NewLoopInSwap.
  destruct (looprpc.NewLoopInSwap _ _ _) as [swapResp|err]; [|reflexivity].
  destruct (btcec.ParsePubKey _ _) as [pk [err|]]; reflexivity.
Qed.

(** The context of the RPC is bounded as [one_call_within] says. *)
Lemma rpcCtx_within (req : looprpc.Request) :
  one_call_within w globalCallTimeout ctx tr
    (tr ++ [Invoke (rpcCtx w globalCallTimeout ctx) req]).
Proof.
  exists (rpcCtx w globalCallTimeout ctx), req.
  split; [reflexivity|]. split; [apply rpcCtx_deadline|].
  intros d Hd Hlt.
  assert (Hc : context.Deadline (rpcCtx w globalCallTimeout ctx) = Some d).
  { rewrite rpcCtx_deadline, Hd. cbn [stricter]. f_equal. lia. }
  split; [exact Hc|].
  intros t Hle. exact (Err_after_deadline _ _ _ Hc Hle).
Qed.

End Outcomes.

(** C9. Each of the six operations returns exactly one of a response and
    an error: on every path that returns an error the response is nil, and
    a response is returned with a nil error. *)
Theorem operations_return_response_xor_error
  (w : World) (globalCallTimeout : Duration) (s : grpcSwapServerClient)
  (ctx : context.Context) (tr : trace) (swapHash : bytes) (amt : Z)
  (key : bytes) (deadline : Time) (swapInvoice : string) :
  exactly_one (fst (GetLoopOutTerms w globalCallTimeout s ctx tr)) = true
  /\ exactly_one
       (fst (GetLoopOutQuote w globalCallTimeout s ctx amt deadline tr))
     = true
  /\ exactly_one (fst (GetLoopInTerms w globalCallTimeout s ctx tr)) = true
  /\ exactly_one (fst (GetLoopInQuote w globalCallTimeout s ctx amt tr))
     = true
  /\ exactly_one
       (fst (NewLoopOutSwap w globalCallTimeout s ctx swapHash amt key
               deadline tr)) = true
  /\ exactly_one
       (fst (NewLoopInSwap w globalCallTimeout s ctx swapHash amt key
               swapInvoice tr)) = true.
Proof.
  repeat split.
  - apply GetLoopOutTerms_exactly_one.
  - apply GetLoopOutQuote_exactly_one.
  - apply GetLoopInTerms_exactly_one.
  - apply GetLoopInQuote_exactly_one.
  - apply NewLoopOutSwap_exactly_one.
  - apply NewLoopInSwap_exactly_one.
Qed.

(** Each of the six operations makes its RPC under a context whose
    deadline is the stricter of the caller's deadline and of the global
    call timeout; when the caller's deadline is the earlier one, the RPC's
    context expires at that deadline, and is done from then on. *)
Lemma operations_bound_rpc_by_stricter_deadline
  (w : World) (globalCallTimeout : Duration) (s : grpcSwapServerClient)
  (ctx : context.Context) (tr : trace) (swapHash : bytes) (amt : Z)
  (key : bytes) (deadline : Time) (swapInvoice : string) :
  one_call_within w globalCallTimeout ctx tr
    (snd (GetLoopOutTerms w globalCallTimeout s ctx tr))
  /\ one_call_within w globalCallTimeout ctx tr
       (snd (GetLoopOutQuote w globalCallTimeout s ctx amt deadline tr))
  /\ one_call_within w globalCallTimeout ctx tr
       (snd (GetLoopInTerms w globalCallTimeout s ctx tr))
  /\ one_call_within w globalCallTimeout ctx tr
       (snd (GetLoopInQuote w globalCallTimeout s ctx amt tr))
  /\ one_call_within w globalCallTimeout ctx tr
       (snd (NewLoopOutSwap w globalCallTimeout s ctx swapHash amt key
               deadline tr))
  /\ one_call_within w globalCallTimeout ctx tr
       (snd (NewLoopInSwap w globalCallTimeout s ctx swapHash amt key
               swapInvoice tr)).
Proof.
  rewrite GetLoopOutTerms_sends, GetLoopOutQuote_sends, GetLoopInTerms_sends,
    GetLoopInQuote_sends, NewLoopOutSwap_sends, NewLoopInSwap_sends.
  repeat split; apply rpcCtx_within.
Qed.

(** A caller whose context expires one second from now, under a global
    call timeout of four seconds: the RPC of the terms lookup carries the
    caller's deadline. *)
Lemma operations_bound_rpc_by_stricter_deadline_witness :
  one_call_within (sampleWorld keyG "") sampleTimeout
    {| context.Deadline := Some (1001 * Second) |} []
    (snd (GetLoopOutTerms (sampleWorld keyG "") sampleTimeout
            (sampleClient keyG "")
            {| context.Deadline := Some (1001 * Second) |} [])).
Proof.
  exact (proj1 (operations_bound_rpc_by_stricter_deadline
                  (sampleWorld keyG "") sampleTimeout (sampleClient keyG "")
                  {| context.Deadline := Some (1001 * Second) |} []
                  (repeat x01 32) 100000 keyG 0 "lnbc-in")).
Defined.

(** ** Deadlines and the abort of a call *)

(** A call whose context expires before the answer arrives is aborted with
    the deadline error. *)
Lemma call_aborted {Req Resp : Type} (now : Time) (lat : Duration)
  (answer : Req -> reply Resp) (ctx : context.Context) (req : Req)
  (d : Time) :
  context.Deadline ctx = Some d ->
  d <= Add now lat ->
  runtime.call now lat answer ctx req = Fail context.DeadlineExceeded.
Proof.
  intros Hd Hle. unfold runtime.call.
  rewrite (Err_after_deadline ctx d (Add now lat) Hd Hle). reflexivity.
Qed.

(** A call whose answer arrives before its context expires returns the
    answer. *)
Lemma call_answered {Req Resp : Type} (now : Time) (lat : Duration)
  (answer : Req -> reply Resp) (ctx : context.Context) (req : Req)
  (d : Time) :
  context.Deadline ctx = Some d ->
  Add now lat < d ->
  runtime.call now lat answer ctx req = answer req.
Proof.
  intros Hd Hlt. unfold runtime.call, context.Err. rewrite Hd.
  destruct (Z.leb_spec d (Add now lat)); [lia | reflexivity].
Qed.

(** A call returns no later than the deadline of its context, or at once
    when the deadline has passed. *)
Lemma returnsAt_bound (now : Time) (lat : Duration) (ctx : context.Context)
  (d : Time) :
  context.Deadline ctx = Some d ->
  runtime.returnsAt now lat ctx <= Z.max now d.
Proof.
  intros Hd. unfold runtime.returnsAt. rewrite Hd. lia.
Qed.

Section Aborts.

Variable w : World.
Variable globalCallTimeout : Duration.
Variable svc : runtime.Service.
Variable cn : option grpc.ClientConn.
Variable ctx : context.Context.
Variable tr : trace.

Let s : grpcSwapServerClient :=
  {| server := runtime.stub (time_Now w) svc; conn := cn |}.
Let bound : Time :=
  stricter (context.Deadline ctx) (Add (time_Now w) globalCallTimeout).

Ltac abort sends :=
  eexists; eexists; split; [apply sends|];
  split; [apply returnsAt_bound; apply rpcCtx_deadline|];
  intros Hlate.

Ltac aborted op H :=
  run op; unfold s;
  cbn [server runtime.stub looprpc.LoopOutTerms looprpc.LoopOutQuote
       looprpc.LoopInTerms looprpc.LoopInQuote looprpc.NewLoopOutSwap
       looprpc.NewLoopInSwap];
  change (context.WithTimeout (time_Now w) ctx globalCallTimeout)
    with (rpcCtx w globalCallTimeout ctx);
  rewrite (call_aborted _ _ _ _ _ bound
             (rpcCtx_deadline w globalCallTimeout ctx) H);
  reflexivity.

Lemma GetLoopOutTerms_aborted :
  aborted_by w svc bound tr (GetLoopOutTerms w globalCallTimeout s ctx tr).
Proof.
  abort GetLoopOutTerms_sends.
  aborted GetLoopOutTerms Hlate.
Qed.

Lemma GetLoopInTerms_aborted :
  aborted_by w svc bound tr (GetLoopInTerms w globalCallTimeout s ctx tr).
Proof.
  abort GetLoopInTerms_sends.
  aborted GetLoopInTerms Hlate.
Qed.

Lemma GetLoopInQuote_aborted (amt : Z) :
  aborted_by w svc bound tr
    (GetLoopInQuote w globalCallTimeout s ctx amt tr).
Proof.
  abort GetLoopInQuote_sends.
  aborted GetLoopInQuote Hlate.
Qed.

Lemma GetLoopOutQuote_aborted (amt : Z) (deadline : Time) :
  aborted_by w svc bound tr
    (GetLoopOutQuote w globalCallTimeout s ctx amt deadline tr).
Proof.
  abort GetLoopOutQuote_sends.
  aborted GetLoopOutQuote Hlate.
Qed.

Lemma NewLoopOutSwap_aborted (swapHash : bytes) (amt : Z) (key : bytes)
  (deadline : Time) :
  aborted_by w svc bound tr
    (NewLoopOutSwap w globalCallTimeout s ctx swapHash amt key deadline tr).
Proof.
  abort NewLoopOutSwap_sends.
  aborted NewLoopOutSwap Hlate.
Qed.

Lemma NewLoopInSwap_aborted (swapHash : bytes) (amt : Z) (key : bytes)
  (swapInvoice : string) :
  aborted_by w svc bound tr
    (NewLoopInSwap w globalCallTimeout s ctx swapHash amt key swapInvoice
       tr).
Proof.
  abort NewLoopInSwap_sends.
  aborted NewLoopInSwap Hlate.
Qed.

End Aborts.

(** An answer that arrives before the deadline of the RPC is what the
    terms lookup works on: the call is not aborted. *)
Lemma GetLoopOutTerms_answered_in_time
  (w : World) (globalCallTimeout : Duration) (svc : runtime.Service)
  (cn : option grpc.ClientConn) (ctx : context.Context) (tr : trace)
  (terms : looprpc.ServerLoopOutTerms.t) :
  Add (time_Now w)
    (runtime.latency svc
       (looprpc.CallLoopOutTerms looprpc.Build_ServerLoopOutTermsRequest))
  < stricter (context.Deadline ctx) (Add (time_Now w) globalCallTimeout) ->
  runtime.LoopOutTerms svc looprpc.Build_ServerLoopOutTermsRequest
  = Reply terms ->
  fst (GetLoopOutTerms w globalCallTimeout
         {| server := runtime.stub (time_Now w) svc; conn := cn |} ctx tr)
  = (Some {|
       LoopOutTerms.MinSwapAmount :=
         to_int64 (looprpc.ServerLoopOutTerms.MinSwapAmount terms);
       LoopOutTerms.MaxSwapAmount :=
         to_int64 (looprpc.ServerLoopOutTerms.MaxSwapAmount terms) |}, None).
Proof.
  intros Hlt Hans. run GetLoopOutTerms.
  cbn [server runtime.stub looprpc.LoopOutTerms].
  change (context.WithTimeout (time_Now w) ctx globalCallTimeout)
    with (rpcCtx w globalCallTimeout ctx).
  rewrite (call_answered _ _ _ _ _ _
             (rpcCtx_deadline w globalCallTimeout ctx) Hlt), Hans.
  reflexivity.
Qed.

(** C7. Each of the six operations bounds its RPC by the stricter of the
    caller's deadline and of the global call timeout counted from the
    call. Against a service carried by the runtime, the operation makes
    one RPC, which returns no later than that bound; when the answer has
    not arrived by then the call is aborted and the operation returns the
    deadline error. For a caller whose deadline is earlier than the global
    timeout, the bound is the caller's deadline. *)
Theorem operations_are_aborted_by_stricter_deadline
  (w : World) (globalCallTimeout : Duration) (svc : runtime.Service)
  (cn : option grpc.ClientConn) (ctx : context.Context) (tr : trace)
  (swapHash : bytes) (amt : Z) (key : bytes) (deadline : Time)
  (swapInvoice : string) :
  let s := {| server := runtime.stub (time_Now w) svc; conn := cn |} in
  let bound :=
    stricter (context.Deadline ctx) (Add (time_Now w) globalCallTimeout) in
  (forall d,
     context.Deadline ctx = Some d ->
     d < Add (time_Now w) globalCallTimeout ->
     bound = d)
  /\ bound <= Add (time_Now w) globalCallTimeout
  /\ aborted_by w svc bound tr (GetLoopOutTerms w globalCallTimeout s ctx tr)
  /\ aborted_by w svc bound tr
       (GetLoopOutQuote w globalCallTimeout s ctx amt deadline tr)
  /\ aborted_by w svc bound tr (GetLoopInTerms w globalCallTimeout s ctx tr)
  /\ aborted_by w svc bound tr
       (GetLoopInQuote w globalCallTimeout s ctx amt tr)
  /\ aborted_by w svc bound tr
       (NewLoopOutSwap w globalCallTimeout s ctx swapHash amt key deadline
          tr)
  /\ aborted_by w svc bound tr
       (NewLoopInSwap w globalCallTimeout s ctx swapHash amt key swapInvoice
          tr).
Proof.
  intros s bound. subst s bound.
  split; [intros d Hd Hlt; rewrite Hd; cbn [stricter]; lia|].
  split; [apply stricter_le_global|].
  split; [apply GetLoopOutTerms_aborted|].
  split; [apply GetLoopOutQuote_aborted|].
  split; [apply GetLoopInTerms_aborted|].
  split; [apply GetLoopInQuote_aborted|].
  split; [apply NewLoopOutSwap_aborted | apply NewLoopInSwap_aborted].
Qed.

(** A caller whose context expires one second after the call, a global
    call timeout of four seconds, and a service that takes five seconds:
    the terms lookup is aborted by the caller's deadline. *)
Lemma operations_are_aborted_by_stricter_deadline_witness :
  stricter (Some (1001 * Second))
    (Add (time_Now (sampleWorld keyG "")) sampleTimeout) = 1001 * Second
  /\ fst (GetLoopOutTerms (sampleWorld keyG "") sampleTimeout
            {| server := runtime.stub (time_Now (sampleWorld keyG ""))
                           (slowService keyG "");
               conn := None |}
            {| context.Deadline := Some (1001 * Second) |} [])
     = (None, Some context.DeadlineExceeded).
Proof.
  pose proof (operations_are_aborted_by_stricter_deadline
                (sampleWorld keyG "") sampleTimeout (slowService keyG "")
                None {| context.Deadline := Some (1001 * Second) |} []
                (repeat x01 32) 100000 keyG 0 "lnbc-in")
    as (Hearlier & _ & (c & req & _ & _ & Habort) & _).
  split.
  - apply (Hearlier (1001 * Second)); [reflexivity|].
    vm_compute. reflexivity.
  - apply Habort. vm_compute. discriminate.
Defined.

(** ** Construction: the transport mode and the pinned certificate *)

Section Construction.

Variable w : World.
Variable address : string.
Variable interceptor : lsat.Interceptor.
Variable tr : trace.

(** With the insecure flag set, nothing but the dial happens, and it
    happens without transport security, whatever the certificate path. *)
Lemma getSwapServerConn_insecure (tlsPath : string) :
  snd (getSwapServerConn w address true tlsPath interceptor tr)
  = tr ++ [Dial address
             [grpc.WithUnaryInterceptor interceptor; grpc.WithInsecure]].
Proof.
  run getSwapServerConn. unfold grpc_Dial, bind, emit, ret. cbn [app].
  destruct (dialError w address _); reflexivity.
Qed.

(** Without the flag and without a path, the dial uses the default
    transport security. *)
Lemma getSwapServerConn_default :
  snd (getSwapServerConn w address false "" interceptor tr)
  = tr ++ [Dial address
             [grpc.WithUnaryInterceptor interceptor;
              grpc.WithTransportCredentials
                (Some (credentials.NewTLS credentials.emptyConfig))]].
Proof.
  run getSwapServerConn. unfold grpc_Dial, bind, emit, ret.
  cbn [app String.eqb negb].
  destruct (dialError w address _); reflexivity.
Qed.

(** Without the flag and with a path whose file holds certificates, the
    file is read and the dial uses credentials whose root pool is what was
    read. *)
Lemma getSwapServerConn_pinned (tlsPath : string) (pem : bytes)
  (pool : credentials.CertPool) :
  tlsPath <> "" ->
  file w tlsPath = (pem, None) ->
  AppendCertsFromPEM w pem = (pool, true) ->
  snd (getSwapServerConn w address false tlsPath interceptor tr)
  = tr ++ [ReadFile tlsPath;
           Dial address
             [grpc.WithUnaryInterceptor interceptor;
              grpc.WithTransportCredentials
                (Some (credentials.NewTLS
                         {| credentials.ServerName := "";
                            credentials.RootCAs := Some pool |}))]].
Proof.
  intros Hpath Hfile Hpem.
  apply String.eqb_neq in Hpath.
  run getSwapServerConn.
  unfold NewClientTLSFromFile, grpc_Dial, bind, emit, ret.
  rewrite Hpath, Hfile, Hpem. cbn [negb app].
  rewrite <- app_assoc. cbn [app].
  destruct (dialError w address _); reflexivity.
Qed.

(** Without the flag and with a path whose file cannot be loaded, the file
    is read, nothing is dialed, and the error of the load is returned. *)
Lemma getSwapServerConn_unloadable (tlsPath : string) :
  tlsPath <> "" ->
  unloadable w tlsPath ->
  exists e,
    getSwapServerConn w address false tlsPath interceptor tr
    = ((None, Some e), tr ++ [ReadFile tlsPath])
    /\ CertificateLoadError w tlsPath e.
Proof.
  intros Hpath Hbad.
  apply String.eqb_neq in Hpath.
  run getSwapServerConn.
  unfold NewClientTLSFromFile, bind, emit, ret, CertificateLoadError.
  rewrite Hpath. cbn [negb].
  unfold unloadable in Hbad.
  destruct (file w tlsPath) as [pem [err|]] eqn:Hfile;
    rewrite ?Hfile in Hbad; cbn [fst snd] in *.
  - exists err. split; [reflexivity | left; reflexivity].
  - destruct Hbad as [[e He]|Hpem]; [discriminate He|].
    destruct (AppendCertsFromPEM w pem) as [pool ok] eqn:Hpool.
    cbn [snd] in Hpem. subst ok. cbn [negb].
    eexists. split; [reflexivity|].
    right. repeat split; reflexivity.
Qed.

End Construction.

Lemma dials_app (tr1 tr2 : trace) : dials (tr1 ++ tr2) = dials tr1 ++ dials tr2.
Proof. apply filter_app. Qed.

(** C5. The transport mode of the channel is decided by the insecure flag
    first and the certificate path second. With the flag set the dial has
    no transport security, whatever the path. With the flag unset and a
    path that is not empty, the dial has credentials pinned to the
    certificates loaded from that path. With the flag unset and the path
    empty, the dial has the default transport security. *)
Theorem transport_mode_selection
  (w : World) (address : string) (interceptor : lsat.Interceptor)
  (tr : trace) :
  (forall tlsPath,
     snd (getSwapServerConn w address true tlsPath interceptor tr)
     = tr ++ [Dial address
                [grpc.WithUnaryInterceptor interceptor; grpc.WithInsecure]])
  /\
  (forall tlsPath pem pool,
     tlsPath <> "" ->
     file w tlsPath = (pem, None) ->
     AppendCertsFromPEM w pem = (pool, true) ->
     snd (getSwapServerConn w address false tlsPath interceptor tr)
     = tr ++ [ReadFile tlsPath;
              Dial address
                [grpc.WithUnaryInterceptor interceptor;
                 grpc.WithTransportCredentials
                   (Some (credentials.NewTLS
                            {| credentials.ServerName := "";
                               credentials.RootCAs := Some pool |}))]])
  /\
  snd (getSwapServerConn w address false "" interceptor tr)
  = tr ++ [Dial address
             [grpc.WithUnaryInterceptor interceptor;
              grpc.WithTransportCredentials
                (Some (credentials.NewTLS credentials.emptyConfig))]].
Proof.
  split; [|split].
  - apply getSwapServerConn_insecure.
  - apply getSwapServerConn_pinned.
  - apply getSwapServerConn_default.
Qed.

(** The three modes in a world whose file [/tls.cert] holds a
    certificate: the flag set next to that path, the path alone, and
    neither. *)
Lemma transport_mode_selection_witness :
  snd (getSwapServerConn pinnedWorld "swap.example:11010" true "/tls.cert"
         sampleInterceptor [])
  = [Dial "swap.example:11010"
       [grpc.WithUnaryInterceptor sampleInterceptor; grpc.WithInsecure]]
  /\
  snd (getSwapServerConn pinnedWorld "swap.example:11010" false "/tls.cert"
         sampleInterceptor [])
  = [ReadFile "/tls.cert";
     Dial "swap.example:11010"
       [grpc.WithUnaryInterceptor sampleInterceptor;
        grpc.WithTransportCredentials
          (Some (credentials.NewTLS
                   {| credentials.ServerName := "";
                      credentials.RootCAs := Some [sampleCert] |}))]]
  /\
  snd (getSwapServerConn pinnedWorld "swap.example:11010" false ""
         sampleInterceptor [])
  = [Dial "swap.example:11010"
       [grpc.WithUnaryInterceptor sampleInterceptor;
        grpc.WithTransportCredentials
          (Some (credentials.NewTLS credentials.emptyConfig))]].
Proof.
  pose proof (transport_mode_selection pinnedWorld "swap.example:11010"
                sampleInterceptor []) as [Hinsecure [Hpinned Hdefault]].
  split; [|split].
  - exact (Hinsecure "/tls.cert").
  - apply (Hpinned "/tls.cert" samplePEM [sampleCert]);
      [discriminate | reflexivity | reflexivity].
  - exact Hdefault.
Defined.

(** C6. A construction with the insecure flag unset and a certificate path
    whose file is missing or holds no certificate fails with the error of
    the load, and dials nothing: the trace gains the reading of the file
    and no dial. *)
Theorem unloadable_certificate_fails_before_dial
  (w : World) (serverRPCTimeout : Duration) (address tlsPath : string)
  (lsatStore : Store) (lnd : LndServices) (tr : trace) :
  tlsPath <> "" ->
  unloadable w tlsPath ->
  exists e,
    fst (newSwapServerClient w serverRPCTimeout address false tlsPath
           lsatStore lnd tr) = (None, Some e)
    /\ CertificateLoadError w tlsPath e
    /\ snd (newSwapServerClient w serverRPCTimeout address false tlsPath
              lsatStore lnd tr) = tr ++ [ReadFile tlsPath]
    /\ dials (snd (newSwapServerClient w serverRPCTimeout address false
                     tlsPath lsatStore lnd tr)) = dials tr.
Proof.
  intros Hpath Hbad.
  destruct (getSwapServerConn_unloadable w address
              (lsat.NewInterceptor lnd lsatStore serverRPCTimeout) tr
              tlsPath Hpath Hbad) as (e & Hconn & Hload).
  exists e.
  unfold newSwapServerClient, bind, ret. rewrite Hconn. cbn [fst snd].
  repeat split; try reflexivity; [exact Hload|].
  rewrite dials_app. cbn. apply app_nil_r.
Qed.

(** The path names a file that does not exist. *)
Lemma unloadable_certificate_fails_before_dial_witness :
  exists e,
    fst (newSwapServerClient (sampleWorld keyG "") (30 * Second)
           "swap.example:11010" false "/missing.cert" (StoreAt 2)
           (LndServicesAt 1) []) = (None, Some e)
    /\ CertificateLoadError (sampleWorld keyG "") "/missing.cert" e
    /\ snd (newSwapServerClient (sampleWorld keyG "") (30 * Second)
              "swap.example:11010" false "/missing.cert" (StoreAt 2)
              (LndServicesAt 1) []) = [] ++ [ReadFile "/missing.cert"]
    /\ dials (snd (newSwapServerClient (sampleWorld keyG "") (30 * Second)
                     "swap.example:11010" false "/missing.cert" (StoreAt 2)
                     (LndServicesAt 1) [])) = dials [].
Proof.
  apply (unloadable_certificate_fails_before_dial
           (sampleWorld keyG "") (30 * Second) "swap.example:11010"
           "/missing.cert" (StoreAt 2) (LndServicesAt 1) []).
  - discriminate.
  - left. eexists. reflexivity.
Defined.

(** * Further properties of the client *)

(** ** Errors of the RPC *)

(** X1. An error of the RPC is returned as it is, with no response, by
    each of the six operations: it is neither wrapped nor replaced. *)
Theorem rpc_error_is_returned_unchanged
  (w : World) (globalCallTimeout : Duration) (s : grpcSwapServerClient)
  (ctx : context.Context) (tr : trace) (swapHash : bytes) (amt : Z)
  (key : bytes) (deadline : Time) (swapInvoice : string) (err : error) :
  let rctx := rpcCtx w globalCallTimeout ctx in
  (looprpc.LoopOutTerms (server s) rctx
     looprpc.Build_ServerLoopOutTermsRequest = Fail err ->
   fst (GetLoopOutTerms w globalCallTimeout s ctx tr) = (None, Some err))
  /\
  (looprpc.LoopOutQuote (server s) rctx (loopOutQuoteRequest amt deadline)
   = Fail err ->
   fst (GetLoopOutQuote w globalCallTimeout s ctx amt deadline tr)
   = (None, Some err))
  /\
  (looprpc.LoopInTerms (server s) rctx
     looprpc.Build_ServerLoopInTermsRequest = Fail err ->
   fst (GetLoopInTerms w globalCallTimeout s ctx tr) = (None, Some err))
  /\
  (looprpc.LoopInQuote (server s) rctx (loopInQuoteRequest amt) = Fail err ->
   fst (GetLoopInQuote w globalCallTimeout s ctx amt tr) = (None, Some err))
  /\
  (looprpc.NewLoopOutSwap (server s) rctx
     (loopOutRequest swapHash amt key deadline) = Fail err ->
   fst (NewLoopOutSwap w globalCallTimeout s ctx swapHash amt key deadline tr)
   = (None, Some err))
  /\
  (looprpc.NewLoopInSwap (server s) rctx
     (loopInRequest swapHash amt key swapInvoice) = Fail err ->
   fst (NewLoopInSwap w globalCallTimeout s ctx swapHash amt key swapInvoice
          tr) = (None, Some err)).
Proof.
  intros rctx. subst rctx.
  unfold rpcCtx, loopOutQuoteRequest, loopInQuoteRequest, loopOutRequest,
    loopInRequest.
  repeat split; intros Hrpc.
  - run GetLoopOutTerms. rewrite Hrpc. reflexivity.
  - run GetLoopOutQuote. rewrite Hrpc. reflexivity.
  - run GetLoopInTerms. rewrite Hrpc. reflexivity.
  - run GetLoopInQuote. rewrite Hrpc. reflexivity.
  - run NewLoopOutSwap. rewrite Hrpc. reflexivity.
  - run NewLoopInSwap. rewrite Hrpc. reflexivity.
Qed.

(** Every call of the service fails with the same transport error. *)
Lemma rpc_error_is_returned_unchanged_witness :
  fst (GetLoopOutTerms (sampleWorld keyG "") sampleTimeout failingClient
         context.Background []) = (None, Some unavailable)
  /\ fst (GetLoopOutQuote (sampleWorld keyG "") sampleTimeout failingClient
            context.Background 100000 0 []) = (None, Some unavailable)
  /\ fst (GetLoopInTerms (sampleWorld keyG "") sampleTimeout failingClient
            context.Background []) = (None, Some unavailable)
  /\ fst (GetLoopInQuote (sampleWorld keyG "") sampleTimeout failingClient
            context.Background 100000 []) = (None, Some unavailable)
  /\ fst (NewLoopOutSwap (sampleWorld keyG "") sampleTimeout failingClient
            context.Background (repeat x01 32) 100000 keyG 0 [])
     = (None, Some unavailable)
  /\ fst (NewLoopInSwap (sampleWorld keyG "") sampleTimeout failingClient
            context.Background (repeat x01 32) 100000 keyG "lnbc-in" [])
     = (None, Some unavailable).
Proof.
  pose proof (rpc_error_is_returned_unchanged
                (sampleWorld keyG "") sampleTimeout failingClient
                context.Background [] (repeat x01 32) 100000 keyG 0
                "lnbc-in" unavailable) as (H1 & H2 & H3 & H4 & H5 & H6).
  exact (conj (H1 eq_refl) (conj (H2 eq_refl) (conj (H3 eq_refl)
           (conj (H4 eq_refl) (conj (H5 eq_refl) (H6 eq_refl)))))).
Defined.

(** ** Amounts *)

Lemma to_int64_of_wire (v : Z) :
  0 <= v < 2 ^ 64 -> amount_of_wire v (to_int64 v).
Proof.
  intros Hv. unfold amount_of_wire, to_int64. split; intros Hcase.
  - rewrite Z.mod_small by lia. lia.
  - replace (v + 2 ^ 63) with (v - 2 ^ 63 + 1 * 2 ^ 64) by lia.
    rewrite Z_mod_plus_full, Z.mod_small by lia. lia.
Qed.

Lemma to_uint64_of_amount (a : Z) :
  - 2 ^ 63 <= a < 2 ^ 63 -> wire_of_amount a (to_uint64 a).
Proof.
  intros Ha. unfold wire_of_amount, to_uint64. split; intros Hcase.
  - apply Z.mod_small. lia.
  - replace a with (a + 2 ^ 64 + (-1) * 2 ^ 64) at 1 by lia.
    rewrite Z_mod_plus_full. apply Z.mod_small. lia.
Qed.

(** X2. The terms lookups return the bounds of the reply as amounts, and
    compare nothing: a bound below [2^63] is returned as it is, a bound
    from [2^63] on comes out as a negative amount, and the minimum may
    exceed the maximum. *)
Theorem terms_are_the_bounds_of_the_reply
  (w : World) (globalCallTimeout : Duration) (s : grpcSwapServerClient)
  (ctx : context.Context) (tr : trace) (minAmt maxAmt : Z) :
  0 <= minAmt < 2 ^ 64 ->
  0 <= maxAmt < 2 ^ 64 ->
  (looprpc.LoopOutTerms (server s) (rpcCtx w globalCallTimeout ctx)
     looprpc.Build_ServerLoopOutTermsRequest
   = Reply {| looprpc.ServerLoopOutTerms.MinSwapAmount := minAmt;
              looprpc.ServerLoopOutTerms.MaxSwapAmount := maxAmt |} ->
   exists terms,
     fst (GetLoopOutTerms w globalCallTimeout s ctx tr) = (Some terms, None)
     /\ amount_of_wire minAmt (LoopOutTerms.MinSwapAmount terms)
     /\ amount_of_wire maxAmt (LoopOutTerms.MaxSwapAmount terms))
  /\
  (looprpc.LoopInTerms (server s) (rpcCtx w globalCallTimeout ctx)
     looprpc.Build_ServerLoopInTermsRequest
   = Reply {| looprpc.ServerLoopInTerms.MinSwapAmount := minAmt;
              looprpc.ServerLoopInTerms.MaxSwapAmount := maxAmt |} ->
   exists terms,
     fst (GetLoopInTerms w globalCallTimeout s ctx tr) = (Some terms, None)
     /\ amount_of_wire minAmt (LoopInTerms.MinSwapAmount terms)
     /\ amount_of_wire maxAmt (LoopInTerms.MaxSwapAmount terms)).
Proof.
  intros Hmin Hmax. unfold rpcCtx. split; intros Hrpc.
  - run GetLoopOutTerms. rewrite Hrpc. eexists. split; [reflexivity|].
    cbn. split; apply to_int64_of_wire; assumption.
  - run GetLoopInTerms. rewrite Hrpc. eexists. split; [reflexivity|].
    cbn. split; apply to_int64_of_wire; assumption.
Qed.

(** The service answers with a minimum of 250000 and a maximum of
    [2^63], which comes out negative and below the minimum. *)
Lemma terms_are_the_bounds_of_the_reply_witness :
  exists terms,
    fst (GetLoopOutTerms (sampleWorld keyG "") sampleTimeout
           (amountClient 250000 (2 ^ 63) 1000) context.Background [])
    = (Some terms, None)
    /\ amount_of_wire 250000 (LoopOutTerms.MinSwapAmount terms)
    /\ amount_of_wire (2 ^ 63) (LoopOutTerms.MaxSwapAmount terms).
Proof.
  apply (proj1 (terms_are_the_bounds_of_the_reply
                  (sampleWorld keyG "") sampleTimeout
                  (amountClient 250000 (2 ^ 63) 1000) context.Background []
                  250000 (2 ^ 63) ltac:(lia) ltac:(lia))).
  reflexivity.
Defined.

(** X3. [GetLoopInQuote] returns the fee of the reply as an amount, under
    the same conversion, and the CLTV delta as it came. *)
Theorem in_quote_is_the_fee_and_delta_of_the_reply
  (w : World) (globalCallTimeout : Duration) (s : grpcSwapServerClient)
  (ctx : context.Context) (tr : trace) (amt : Z)
  (quoteResp : looprpc.ServerLoopInQuoteResponse.t) :
  0 <= looprpc.ServerLoopInQuoteResponse.SwapFee quoteResp < 2 ^ 64 ->
  looprpc.LoopInQuote (server s) (rpcCtx w globalCallTimeout ctx)
    (loopInQuoteRequest amt) = Reply quoteResp ->
  exists quote,
    fst (GetLoopInQuote w globalCallTimeout s ctx amt tr) = (Some quote, None)
    /\ amount_of_wire (looprpc.ServerLoopInQuoteResponse.SwapFee quoteResp)
         (LoopInQuote.SwapFee quote)
    /\ LoopInQuote.CltvDelta quote
       = looprpc.ServerLoopInQuoteResponse.CltvDelta quoteResp.
Proof.
  intros Hfee Hrpc. unfold rpcCtx, loopInQuoteRequest in Hrpc.
  run GetLoopInQuote. rewrite Hrpc. eexists. split; [reflexivity|].
  cbn. split; [apply to_int64_of_wire; exact Hfee | reflexivity].
Qed.

Lemma in_quote_is_the_fee_and_delta_of_the_reply_witness :
  exists quote,
    fst (GetLoopInQuote (sampleWorld keyG "") sampleTimeout
           (amountClient 250000 2000000 1000) context.Background 500000 [])
    = (Some quote, None)
    /\ amount_of_wire 1000 (LoopInQuote.SwapFee quote)
    /\ LoopInQuote.CltvDelta quote = 144.
Proof.
  apply (in_quote_is_the_fee_and_delta_of_the_reply
           (sampleWorld keyG "") sampleTimeout
           (amountClient 250000 2000000 1000) context.Background [] 500000
           {| looprpc.ServerLoopInQuoteResponse.SwapFee := 1000;
              looprpc.ServerLoopInQuoteResponse.CltvDelta := 144 |});
    [cbn; lia | reflexivity].
Defined.

(** X4. No operation looks at the amount it is given: the RPC is made
    whatever the amount, which goes out converted to an unsigned 64-bit
    value, so that a negative amount is sent as that amount plus [2^64]. *)
Theorem amount_is_sent_unchecked
  (w : World) (globalCallTimeout : Duration) (s : grpcSwapServerClient)
  (ctx : context.Context) (tr : trace) (swapHash : bytes) (amt : Z)
  (key : bytes) (deadline : Time) (swapInvoice : string) :
  - 2 ^ 63 <= amt < 2 ^ 63 ->
  exists v,
    wire_of_amount amt v
    /\ snd (GetLoopOutQuote w globalCallTimeout s ctx amt deadline tr)
       = tr ++ [Invoke (rpcCtx w globalCallTimeout ctx)
                  (looprpc.CallLoopOutQuote
                     {| looprpc.ServerLoopOutQuoteRequest.Amt := v;
                        looprpc.ServerLoopOutQuoteRequest.SwapPublicationDeadline
                          := Unix deadline |})]
    /\ snd (GetLoopInQuote w globalCallTimeout s ctx amt tr)
       = tr ++ [Invoke (rpcCtx w globalCallTimeout ctx)
                  (looprpc.CallLoopInQuote
                     {| looprpc.ServerLoopInQuoteRequest.Amt := v |})]
    /\ snd (NewLoopOutSwap w globalCallTimeout s ctx swapHash amt key
              deadline tr)
       = tr ++ [Invoke (rpcCtx w globalCallTimeout ctx)
                  (looprpc.CallNewLoopOutSwap
                     {| looprpc.ServerLoopOutRequest.SwapHash := swapHash;
                        looprpc.ServerLoopOutRequest.Amt := v;
                        looprpc.ServerLoopOutRequest.ReceiverKey := key;
                        looprpc.ServerLoopOutRequest.SwapPublicationDeadline
                          := Unix deadline |})]
    /\ snd (NewLoopInSwap w globalCallTimeout s ctx swapHash amt key
              swapInvoice tr)
       = tr ++ [Invoke (rpcCtx w globalCallTimeout ctx)
                  (looprpc.CallNewLoopInSwap
                     {| looprpc.ServerLoopInRequest.SwapHash := swapHash;
                        looprpc.ServerLoopInRequest.Amt := v;
                        looprpc.ServerLoopInRequest.SenderKey := key;
                        looprpc.ServerLoopInRequest.SwapInvoice :=
                          swapInvoice |})].
Proof.
  intros Hamt. exists (to_uint64 amt).
  split; [apply to_uint64_of_amount; exact Hamt|].
  rewrite GetLoopOutQuote_sends, GetLoopInQuote_sends, NewLoopOutSwap_sends,
    NewLoopInSwap_sends.
  repeat split.
Qed.

(** An amount of minus one satoshi goes out as [2^64 - 1]. *)
Lemma amount_is_sent_unchecked_witness :
  exists v,
    wire_of_amount (-1) v
    /\ snd (GetLoopOutQuote (sampleWorld keyG "") sampleTimeout
              (sampleClient keyG "") context.Background (-1) 0 [])
       = [] ++ [Invoke (rpcCtx (sampleWorld keyG "") sampleTimeout
                          context.Background)
                  (looprpc.CallLoopOutQuote
                     {| looprpc.ServerLoopOutQuoteRequest.Amt := v;
                        looprpc.ServerLoopOutQuoteRequest.SwapPublicationDeadline
                          := Unix 0 |})]
    /\ snd (GetLoopInQuote (sampleWorld keyG "") sampleTimeout
              (sampleClient keyG "") context.Background (-1) [])
       = [] ++ [Invoke (rpcCtx (sampleWorld keyG "") sampleTimeout
                          context.Background)
                  (looprpc.CallLoopInQuote
                     {| looprpc.ServerLoopInQuoteRequest.Amt := v |})]
    /\ snd (NewLoopOutSwap (sampleWorld keyG "") sampleTimeout
              (sampleClient keyG "") context.Background (repeat x01 32)
              (-1) keyG 0 [])
       = [] ++ [Invoke (rpcCtx (sampleWorld keyG "") sampleTimeout
                          context.Background)
                  (looprpc.CallNewLoopOutSwap
                     {| looprpc.ServerLoopOutRequest.SwapHash :=
                          repeat x01 32;
                        looprpc.ServerLoopOutRequest.Amt := v;
                        looprpc.ServerLoopOutRequest.ReceiverKey := keyG;
                        looprpc.ServerLoopOutRequest.SwapPublicationDeadline
                          := Unix 0 |})]
    /\ snd (NewLoopInSwap (sampleWorld keyG "") sampleTimeout
              (sampleClient keyG "") context.Background (repeat x01 32)
              (-1) keyG "lnbc-in" [])
       = [] ++ [Invoke (rpcCtx (sampleWorld keyG "") sampleTimeout
                          context.Background)
                  (looprpc.CallNewLoopInSwap
                     {| looprpc.ServerLoopInRequest.SwapHash := repeat x01 32;
                        looprpc.ServerLoopInRequest.Amt := v;
                        looprpc.ServerLoopInRequest.SenderKey := keyG;
                        looprpc.ServerLoopInRequest.SwapInvoice :=
                          "lnbc-in" |})].
Proof.
  apply (amount_is_sent_unchecked
           (sampleWorld keyG "") sampleTimeout (sampleClient keyG "")
           context.Background [] (repeat x01 32) (-1) keyG 0 "lnbc-in").
  lia.
Defined.

(** ** The publication deadline *)

Lemma Unix_within_second (sec frac : Z) :
  0 <= frac < Second -> Unix (sec * Second + frac) = sec.
Proof.
  intros Hfrac. unfold Unix, Second in *.
  symmetry. apply (Z.div_unique _ _ _ frac); lia.
Qed.

(** X5. The publication deadline goes out in whole seconds: two deadlines
    within the same second make [GetLoopOutQuote] and [NewLoopOutSwap] send
    the same request and return the same result. *)
Theorem publication_deadline_is_sent_in_seconds
  (w : World) (globalCallTimeout : Duration) (s : grpcSwapServerClient)
  (ctx : context.Context) (tr : trace) (swapHash : bytes) (amt : Z)
  (key : bytes) (sec frac frac' : Z) :
  0 <= frac < Second ->
  0 <= frac' < Second ->
  GetLoopOutQuote w globalCallTimeout s ctx amt (sec * Second + frac) tr
  = GetLoopOutQuote w globalCallTimeout s ctx amt (sec * Second + frac') tr
  /\ NewLoopOutSwap w globalCallTimeout s ctx swapHash amt key
       (sec * Second + frac) tr
     = NewLoopOutSwap w globalCallTimeout s ctx swapHash amt key
         (sec * Second + frac') tr
  /\ snd (NewLoopOutSwap w globalCallTimeout s ctx swapHash amt key
            (sec * Second + frac) tr)
     = tr ++ [Invoke (rpcCtx w globalCallTimeout ctx)
                (looprpc.CallNewLoopOutSwap
                   {| looprpc.ServerLoopOutRequest.SwapHash := swapHash;
                      looprpc.ServerLoopOutRequest.Amt := to_uint64 amt;
                      looprpc.ServerLoopOutRequest.ReceiverKey := key;
                      looprpc.ServerLoopOutRequest.SwapPublicationDeadline
                        := sec |})].
Proof.
  intros Hfrac Hfrac'.
  pose proof (Unix_within_second sec frac Hfrac) as Hu.
  pose proof (Unix_within_second sec frac' Hfrac') as Hu'.
  split; [|split].
  - unfold GetLoopOutQuote. rewrite Hu, Hu'. reflexivity.
  - unfold NewLoopOutSwap. rewrite Hu, Hu'. reflexivity.
  - rewrite NewLoopOutSwap_sends. unfold loopOutRequest. rewrite Hu.
    reflexivity.
Qed.

(** Half a second and nine tenths of a second after the same second. *)
Lemma publication_deadline_is_sent_in_seconds_witness :
  GetLoopOutQuote (sampleWorld keyG "") sampleTimeout
    (sampleClient keyG hexKey02) context.Background 100000
    (1700000000 * Second + 500000000) []
  = GetLoopOutQuote (sampleWorld keyG "") sampleTimeout
      (sampleClient keyG hexKey02) context.Background 100000
      (1700000000 * Second + 900000000) [].
Proof.
  exact (proj1 (publication_deadline_is_sent_in_seconds
                  (sampleWorld keyG "") sampleTimeout
                  (sampleClient keyG hexKey02) context.Background []
                  (repeat x01 32) 100000 keyG 1700000000
                  500000000 900000000
                  ltac:(unfold Second; lia) ltac:(unfold Second; lia))).
Defined.

(** ** A context that has already expired *)

Lemma rpcCtx_already_done (w : World) (globalCallTimeout : Duration)
  (ctx : context.Context) :
  globalCallTimeout <= 0
  \/ (exists d, context.Deadline ctx = Some d /\ d <= time_Now w) ->
  context.Err (rpcCtx w globalCallTimeout ctx) (time_Now w)
  = Some context.DeadlineExceeded.
Proof.
  intros Hcase.
  apply (Err_after_deadline _
           (stricter (context.Deadline ctx)
              (Add (time_Now w) globalCallTimeout))).
  - apply rpcCtx_deadline.
  - unfold Add. destruct Hcase as [Hto|[d [Hd Hle]]].
    + pose proof (stricter_le_global (context.Deadline ctx)
                    (time_Now w + globalCallTimeout)). lia.
    + rewrite Hd. cbn [stricter]. lia.
Qed.

(** X6. No operation looks at the context it is given. When the caller's
    deadline has passed, or the global call timeout is not positive, each
    of the six operations still makes its RPC, under a context that is
    done at the instant of the call. *)
Theorem expired_context_is_still_sent
  (w : World) (globalCallTimeout : Duration) (s : grpcSwapServerClient)
  (ctx : context.Context) (tr : trace) (swapHash : bytes) (amt : Z)
  (key : bytes) (deadline : Time) (swapInvoice : string) :
  globalCallTimeout <= 0
  \/ (exists d, context.Deadline ctx = Some d /\ d <= time_Now w) ->
  one_call_already_done w tr
    (snd (GetLoopOutTerms w globalCallTimeout s ctx tr))
  /\ one_call_already_done w tr
       (snd (GetLoopOutQuote w globalCallTimeout s ctx amt deadline tr))
  /\ one_call_already_done w tr
       (snd (GetLoopInTerms w globalCallTimeout s ctx tr))
  /\ one_call_already_done w tr
       (snd (GetLoopInQuote w globalCallTimeout s ctx amt tr))
  /\ one_call_already_done w tr
       (snd (NewLoopOutSwap w globalCallTimeout s ctx swapHash amt key
               deadline tr))
  /\ one_call_already_done w tr
       (snd (NewLoopInSwap w globalCallTimeout s ctx swapHash amt key
               swapInvoice tr)).
Proof.
  intros Hcase.
  pose proof (rpcCtx_already_done w globalCallTimeout ctx Hcase) as Hdone.
  rewrite GetLoopOutTerms_sends, GetLoopOutQuote_sends, GetLoopInTerms_sends,
    GetLoopInQuote_sends, NewLoopOutSwap_sends, NewLoopInSwap_sends.
  repeat split; eexists; eexists; (split; [reflexivity | exact Hdone]).
Qed.

(** The caller's deadline passed one second before the call. *)
Lemma expired_context_is_still_sent_witness :
  one_call_already_done (sampleWorld keyG "") []
    (snd (GetLoopOutTerms (sampleWorld keyG "") sampleTimeout
            (sampleClient keyG "")
            {| context.Deadline := Some (999 * Second) |} [])).
Proof.
  refine (proj1 (expired_context_is_still_sent
                   (sampleWorld keyG "") sampleTimeout (sampleClient keyG "")
                   {| context.Deadline := Some (999 * Second) |} []
                   (repeat x01 32) 100000 keyG 0 "lnbc-in" _)).
  right. exists (999 * Second). split; [reflexivity|].
  vm_compute. discriminate.
Defined.

(** ** The payment destination as a hexadecimal string *)

Lemma bytes_of_string_length (s : string) :
  List.length (bytes_of_string s) = String.length s.
Proof.
  unfold bytes_of_string. rewrite length_map.
  induction s as [|a s IH]; cbn; [reflexivity | rewrite IH; reflexivity].
Qed.

(** Decoding without error yields one byte for every two characters. *)
Lemma Decode_length (src out : bytes) :
  hex.Decode src = (out, None) ->
  List.length src = (2 * List.length out)%nat.
Proof.
  revert out. induction src as [|c|c1 c2 rest IH] using bytes_pair_ind;
    intros out H; cbn [hex.Decode] in H.
  - inversion H. reflexivity.
  - destruct (hex.fromHexChar c); discriminate H.
  - destruct (hex.fromHexChar c1); [|discriminate H].
    destruct (hex.fromHexChar c2); [|discriminate H].
    destruct (hex.Decode rest) as [out' err'].
    inversion H; subst. cbn [List.length].
    rewrite (IH out' eq_refl). lia.
Qed.

(** Decoding succeeds exactly on an even number of digits. *)
Lemma Decode_ok_iff (src : bytes) :
  snd (hex.Decode src) = None
  <-> Nat.even (List.length src) = true /\ forallb is_hex_digit src = true.
Proof.
  induction src as [|c|c1 c2 rest IH] using bytes_pair_ind;
    cbn [hex.Decode forallb List.length Nat.even].
  - split; [intros _; split; reflexivity | reflexivity].
  - unfold is_hex_digit. destruct (hex.fromHexChar c); cbn;
      split; try discriminate; intros [H _]; discriminate H.
  - unfold is_hex_digit at 1 2.
    destruct (hex.fromHexChar c1); cbn [andb snd];
      [|split; [discriminate | intros [_ H]; discriminate H]].
    destruct (hex.fromHexChar c2); cbn [andb snd];
      [|split; [discriminate | intros [_ H]; discriminate H]].
    destruct (hex.Decode rest) as [out err]. cbn [snd] in *. exact IH.
Qed.

(** X7. A payment destination of 33 bytes survives the wire: when the
    reply carries its hexadecimal encoding, [GetLoopOutQuote] returns a
    quote holding these very bytes. *)
Theorem payment_dest_round_trips_through_hex
  (w : World) (globalCallTimeout : Duration) (s : grpcSwapServerClient)
  (ctx : context.Context) (tr : trace) (amt : Z) (deadline : Time)
  (quoteResp : looprpc.ServerLoopOutQuote.t) (dest : bytes) :
  List.length dest = 33%nat ->
  looprpc.ServerLoopOutQuote.SwapPaymentDest quoteResp
  = hex.EncodeToString dest ->
  looprpc.LoopOutQuote (server s) (rpcCtx w globalCallTimeout ctx)
    (loopOutQuoteRequest amt deadline) = Reply quoteResp ->
  exists quote,
    fst (GetLoopOutQuote w globalCallTimeout s ctx amt deadline tr)
    = (Some quote, None)
    /\ LoopOutQuote.SwapPaymentDest quote = dest.
Proof.
  intros Hlen Hfield Hrpc.
  rewrite (GetLoopOutQuote_returns _ _ _ _ _ _ _ _ Hrpc), Hfield,
    DecodeString_EncodeToString, Hlen.
  cbn [Z.of_nat Z.eqb Pos.eqb].
  eexists. split; [reflexivity|].
  cbn [LoopOutQuote.SwapPaymentDest]. apply copy_33. exact Hlen.
Qed.

(** The destination is the compressed base point. *)
Lemma payment_dest_round_trips_through_hex_witness :
  exists quote,
    fst (GetLoopOutQuote (sampleWorld keyG (hex.EncodeToString keyG))
           sampleTimeout (sampleClient keyG (hex.EncodeToString keyG))
           context.Background 100000 0 [])
    = (Some quote, None)
    /\ LoopOutQuote.SwapPaymentDest quote = keyG.
Proof.
  apply (payment_dest_round_trips_through_hex
           (sampleWorld keyG (hex.EncodeToString keyG)) sampleTimeout
           (sampleClient keyG (hex.EncodeToString keyG))
           context.Background [] 100000 0
           {| looprpc.ServerLoopOutQuote.PrepayAmt := 1337;
              looprpc.ServerLoopOutQuote.SwapFee := 1000;
              looprpc.ServerLoopOutQuote.CltvDelta := 20;
              looprpc.ServerLoopOutQuote.SwapPaymentDest :=
                hex.EncodeToString keyG |}
           keyG);
    reflexivity.
Defined.

(** X8. Once its RPC has succeeded, [GetLoopOutQuote] returns a quote
    exactly when the payment destination of the reply is a string of 66
    hexadecimal digits, of either case. *)
Theorem quote_succeeds_iff_66_hex_digits
  (w : World) (globalCallTimeout : Duration) (s : grpcSwapServerClient)
  (ctx : context.Context) (tr : trace) (amt : Z) (deadline : Time)
  (quoteResp : looprpc.ServerLoopOutQuote.t) :
  looprpc.LoopOutQuote (server s) (rpcCtx w globalCallTimeout ctx)
    (loopOutQuoteRequest amt deadline) = Reply quoteResp ->
  (exists quote,
     fst (GetLoopOutQuote w globalCallTimeout s ctx amt deadline tr)
     = (Some quote, None))
  <->
  (String.length (looprpc.ServerLoopOutQuote.SwapPaymentDest quoteResp)
   = 66%nat
   /\ all_hex_digits (looprpc.ServerLoopOutQuote.SwapPaymentDest quoteResp)
      = true).
Proof.
  intros Hrpc.
  rewrite (GetLoopOutQuote_returns _ _ _ _ _ _ _ _ Hrpc).
  set (field := looprpc.ServerLoopOutQuote.SwapPaymentDest quoteResp).
  unfold all_hex_digits, hex.DecodeString.
  rewrite <- (bytes_of_string_length field).
  pose proof (Decode_ok_iff (bytes_of_string field)) as Hok.
  pose proof (Decode_length (bytes_of_string field)) as Hlen.
  destruct (hex.Decode (bytes_of_string field)) as [dest [err|]];
    cbn [snd] in Hok.
  - split.
    + intros [quote H]. discriminate H.
    + intros [H66 Hhex].
      assert (Heven : Nat.even (List.length (bytes_of_string field)) = true)
        by (rewrite H66; reflexivity).
      destruct Hok as [_ Hok]. discriminate (Hok (conj Heven Hhex)).
  - specialize (Hlen dest eq_refl).
    destruct Hok as [Hok _]. destruct (Hok eq_refl) as [_ Hhex].
    destruct (Z.eqb_spec (Z.of_nat (List.length dest)) 33) as [H33|H33].
    + split; [intros _; split; [lia | exact Hhex]|].
      intros _. eexists. reflexivity.
    + split; [intros [quote H]; discriminate H|].
      intros [H66 _]. lia.
Qed.

(** Sixty-six digits, upper case among them. *)
Lemma quote_succeeds_iff_66_hex_digits_witness :
  exists quote,
    fst (GetLoopOutQuote
           (sampleWorld keyG
              hexMixedCase)
           sampleTimeout
           (sampleClient keyG
              hexMixedCase)
           context.Background 100000 0 [])
    = (Some quote, None).
Proof.
  apply (proj2 (quote_succeeds_iff_66_hex_digits
                  (sampleWorld keyG
                     hexMixedCase)
                  sampleTimeout
                  (sampleClient keyG
                     hexMixedCase)
                  context.Background [] 100000 0
                  {| looprpc.ServerLoopOutQuote.PrepayAmt := 1337;
                     looprpc.ServerLoopOutQuote.SwapFee := 1000;
                     looprpc.ServerLoopOutQuote.CltvDelta := 20;
                     looprpc.ServerLoopOutQuote.SwapPaymentDest :=
                       hexMixedCase |}
                  eq_refl)).
  split; reflexivity.
Defined.

(** X9. Whatever the service answers, a quote that [GetLoopOutQuote]
    returns comes with no error, and its payment destination has 33 bytes
    whose hexadecimal form has the length of the reply's field. *)
Theorem returned_quote_has_33_byte_dest
  (w : World) (globalCallTimeout : Duration) (s : grpcSwapServerClient)
  (ctx : context.Context) (tr : trace) (amt : Z) (deadline : Time)
  (quote : LoopOutQuote.t) (err : option error) :
  fst (GetLoopOutQuote w globalCallTimeout s ctx amt deadline tr)
  = (Some quote, err) ->
  err = None
  /\ List.length (LoopOutQuote.SwapPaymentDest quote) = 33%nat
  /\ exists quoteResp,
       looprpc.LoopOutQuote (server s) (rpcCtx w globalCallTimeout ctx)
         (loopOutQuoteRequest amt deadline) = Reply quoteResp
       /\ hex.DecodeString
            (looprpc.ServerLoopOutQuote.SwapPaymentDest quoteResp)
          = (LoopOutQuote.SwapPaymentDest quote, None).
Proof.
  unfold rpcCtx, loopOutQuoteRequest. run GetLoopOutQuote.
  destruct (looprpc.LoopOutQuote _ _ _) as [quoteResp|e]; [|discriminate].
  destruct (hex.DecodeString _) as [dest [e|]] eqn:Hdec; [discriminate|].
  destruct (Z.eqb_spec (Z.of_nat (List.length dest)) 33) as [H33|H33];
    cbn [negb fst]; [|discriminate].
  intros H. inversion H; subst. cbn [LoopOutQuote.SwapPaymentDest].
  assert (Hlen : List.length dest = 33%nat) by lia.
  rewrite copy_33 by exact Hlen.
  repeat split; [exact Hlen|].
  exists quoteResp. split; [reflexivity | exact Hdec].
Qed.

Lemma returned_quote_has_33_byte_dest_witness :
  List.length key02 = 33%nat.
Proof.
  refine (proj1 (proj2 (returned_quote_has_33_byte_dest
            (sampleWorld keyG hexKey02) sampleTimeout
            (sampleClient keyG hexKey02) context.Background [] 100000 0
            {| LoopOutQuote.PrepayAmount := 1337;
               LoopOutQuote.SwapFee := 1000;
               LoopOutQuote.CltvDelta := 20;
               LoopOutQuote.SwapPaymentDest := key02 |} None _))).
  reflexivity.
Defined.

(** ** The key of a creation response *)

Lemma decompressPoint_exactly_one (curve : btcec.KoblitzCurve) (x : Z)
  (ybit : bool) :
  exactly_one (btcec.decompressPoint curve x ybit) = true.
Proof.
  unfold btcec.decompressPoint.
  destruct (negb (_ =? _)); [reflexivity|].
  destruct (negb (Bool.eqb _ _)); reflexivity.
Qed.

Lemma checkPoint_exactly_one (curve : btcec.KoblitzCurve) (x y : Z) :
  exactly_one (btcec.checkPoint curve x y) = true.
Proof.
  unfold btcec.checkPoint.
  destruct (_ <=? x); [reflexivity|].
  destruct (_ <=? y); [reflexivity|].
  destruct (negb _); reflexivity.
Qed.

(** [btcec.ParsePubKey] returns a key or an error, never both and never
    neither. *)
Lemma ParsePubKey_exactly_one (key : bytes) (curve : btcec.KoblitzCurve) :
  exactly_one (btcec.ParsePubKey key curve) = true.
Proof.
  unfold btcec.ParsePubKey.
  destruct key as [|b0 rest]; [reflexivity|].
  destruct (_ =? btcec.PubKeyBytesLenUncompressed).
  - destruct (_ && _); [reflexivity|].
    destruct (_ && _); [reflexivity | apply checkPoint_exactly_one].
  - destruct (_ =? btcec.PubKeyBytesLenCompressed); [|reflexivity].
    destruct (negb _); [reflexivity|].
    pose proof (decompressPoint_exactly_one curve
                  (btcec.SetBytes (firstn 32 (skipn 1 (b0 :: rest))))
                  (Z.land (Z_of_byte b0) 1 =? 1)) as Hd.
    destruct (btcec.decompressPoint _ _ _) as [[y|] [e|]];
      try discriminate Hd; reflexivity.
Qed.

(** A key the validation lets through has, once in its array, the shape
    of a compressed key whose [x], taken modulo [P], is the abscissa of a
    point of the curve. *)
Lemma validated_key_decompresses (key : bytes) :
  validateServerKey key = None ->
  exists x y,
    on_secp256k1 (x mod btcec.P btcec.S256) y
    /\ compressed_form x y (copy (zero_array 33) key).
Proof.
  unfold validateServerKey. intros Hok.
  pose proof (ParsePubKey_exactly_one (copy (zero_array 33) key) btcec.S256)
    as Hone.
  destruct (btcec.ParsePubKey (copy (zero_array 33) key) btcec.S256)
    as [[pk|] [e|]] eqn:Hparse; try discriminate.
  exists (btcec.X pk), (btcec.Y pk).
  apply (ParsePubKey_compressed_sound _ pk None); [|exact Hparse].
  rewrite copy_length. apply zero_array_length.
Qed.

(** X10. Whatever the service answers, a response that a creation call
    returns comes with no error, and its key has 33 bytes in the shape of
    a compressed key: a format byte 2 or 3 and an [x] of 32 bytes which,
    taken modulo the field prime, is the abscissa of a point of secp256k1
    whose [y] has the parity the format byte tells. That [x] lies below
    the field prime is not part of it: the parser does not test it. *)
Theorem returned_server_key_decompresses
  (w : World) (globalCallTimeout : Duration) (s : grpcSwapServerClient)
  (ctx : context.Context) (tr : trace) (swapHash : bytes) (amt : Z)
  (key : bytes) (deadline : Time) (swapInvoice : string) :
  (forall resp err,
     fst (NewLoopOutSwap w globalCallTimeout s ctx swapHash amt key deadline
            tr) = (Some resp, err) ->
     err = None
     /\ List.length (newLoopOutResponse.senderKey resp) = 33%nat
     /\ exists x y,
          on_secp256k1 (x mod btcec.P btcec.S256) y
          /\ compressed_form x y (newLoopOutResponse.senderKey resp))
  /\
  (forall resp err,
     fst (NewLoopInSwap w globalCallTimeout s ctx swapHash amt key
            swapInvoice tr) = (Some resp, err) ->
     err = None
     /\ List.length (newLoopInResponse.receiverKey resp) = 33%nat
     /\ exists x y,
          on_secp256k1 (x mod btcec.P btcec.S256) y
          /\ compressed_form x y (newLoopInResponse.receiverKey resp)).
Proof.
  split; intros resp err.
  - destruct (looprpc.NewLoopOutSwap (server s)
                (rpcCtx w globalCallTimeout ctx)
                (loopOutRequest swapHash amt key deadline))
      as [swapResp|e] eqn:Hrpc.
    + rewrite (NewLoopOutSwap_returns _ _ _ _ _ _ _ _ _ _ Hrpc).
      destruct (validateServerKey _) as [e|] eqn:Hkey; [discriminate|].
      intros H. inversion H; subst.
      cbn [newLoopOutResponse.senderKey].
      repeat split;
        [rewrite copy_length; apply zero_array_length
        | apply validated_key_decompresses; exact Hkey].
    + unfold rpcCtx, loopOutRequest in Hrpc.
      run NewLoopOutSwap. rewrite Hrpc. discriminate.
  - destruct (looprpc.NewLoopInSwap (server s)
                (rpcCtx w globalCallTimeout ctx)
                (loopInRequest swapHash amt key swapInvoice))
      as [swapResp|e] eqn:Hrpc.
    + rewrite (NewLoopInSwap_returns _ _ _ _ _ _ _ _ _ _ Hrpc).
      destruct (validateServerKey _) as [e|] eqn:Hkey; [discriminate|].
      intros H. inversion H; subst.
      cbn [newLoopInResponse.receiverKey].
      repeat split;
        [rewrite copy_length; apply zero_array_length
        | apply validated_key_decompresses; exact Hkey].
    + unfold rpcCtx, loopInRequest in Hrpc.
      run NewLoopInSwap. rewrite Hrpc. discriminate.
Qed.

(** The service answers [NewLoopOutSwap] with the base point. *)
Lemma returned_server_key_decompresses_witness :
  exists x y,
    on_secp256k1 (x mod btcec.P btcec.S256) y /\ compressed_form x y keyG.
Proof.
  refine (proj2 (proj2 (proj1 (returned_server_key_decompresses
            (sampleWorld keyG "") sampleTimeout (sampleClient keyG "")
            context.Background [] (repeat x01 32) 100000 keyZ 0 "lnbc-in")
            {| newLoopOutResponse.swapInvoice := "lnbc-swap";
               newLoopOutResponse.prepayInvoice := "lnbc-prepay";
               newLoopOutResponse.senderKey := keyG;
               newLoopOutResponse.expiry := 600000 |} None _))).
  vm_compute. reflexivity.
Defined.

(** The format byte of a compressed key, read back. *)
Lemma format_byte_2_or_3 (b : byte) :
  Z.land (Z_of_byte b) 254 = btcec.pubkeyCompressed ->
  Z_of_byte b = 2 \/ Z_of_byte b = 3.
Proof.
  destruct b; vm_compute; intros H;
    solve [left; reflexivity | right; reflexivity | discriminate H].
Qed.

(** X11. A key of 33 bytes whose first byte is neither 2 nor 3 is refused
    by both creation calls: once the RPC has succeeded with such a key,
    the call returns no response and the error of an invalid key. The key
    of 33 zero bytes is one of them. *)
Theorem key_with_wrong_format_byte_is_refused
  (w : World) (globalCallTimeout : Duration) (s : grpcSwapServerClient)
  (ctx : context.Context) (tr : trace) (swapHash : bytes) (amt : Z)
  (ownKey : bytes) (deadline : Time) (swapInvoice : string)
  (b0 : byte) (rest : bytes) :
  List.length rest = 32%nat ->
  Z_of_byte b0 <> 2 ->
  Z_of_byte b0 <> 3 ->
  (forall swapResp,
     looprpc.NewLoopOutSwap (server s) (rpcCtx w globalCallTimeout ctx)
       (loopOutRequest swapHash amt ownKey deadline) = Reply swapResp ->
     looprpc.ServerLoopOutResponse.SenderKey swapResp = b0 :: rest ->
     exists e,
       fst (NewLoopOutSwap w globalCallTimeout s ctx swapHash amt ownKey
              deadline tr) = (None, Some e)
       /\ InvalidServerKeyError e)
  /\
  (forall swapResp,
     looprpc.NewLoopInSwap (server s) (rpcCtx w globalCallTimeout ctx)
       (loopInRequest swapHash amt ownKey swapInvoice) = Reply swapResp ->
     looprpc.ServerLoopInResponse.ReceiverKey swapResp = b0 :: rest ->
     exists e,
       fst (NewLoopInSwap w globalCallTimeout s ctx swapHash amt ownKey
              swapInvoice tr) = (None, Some e)
       /\ InvalidServerKeyError e).
Proof.
  intros Hlen H2 H3.
  assert (Hkey : exists cause, validateServerKey (b0 :: rest) = Some cause).
  { rewrite validateServerKey_33 by (cbn [List.length]; lia).
    unfold btcec.ParsePubKey.
    replace (Z.of_nat (List.length (b0 :: rest))) with 33
      by (cbn [List.length]; lia).
    change (33 =? btcec.PubKeyBytesLenUncompressed) with false.
    change (33 =? btcec.PubKeyBytesLenCompressed) with true. cbv iota.
    destruct (Z.eqb_spec (Z.land (Z_of_byte b0) 254) btcec.pubkeyCompressed)
      as [Hfmt|Hfmt]; cbn [negb snd].
    - destruct (format_byte_2_or_3 b0 Hfmt); contradiction.
    - eexists. reflexivity. }
  destruct Hkey as [cause Hkey].
  split; intros swapResp Hrpc Hsame.
  - rewrite (NewLoopOutSwap_returns _ _ _ _ _ _ _ _ _ _ Hrpc), Hsame, Hkey.
    eexists. split; [reflexivity|].
    exists (copy (zero_array 33) (b0 :: rest)), cause.
    split; [exact Hkey | reflexivity].
  - rewrite (NewLoopInSwap_returns _ _ _ _ _ _ _ _ _ _ Hrpc), Hsame, Hkey.
    eexists. split; [reflexivity|].
    exists (copy (zero_array 33) (b0 :: rest)), cause.
    split; [exact Hkey | reflexivity].
Qed.

(** The service answers [NewLoopOutSwap] with 33 zero bytes. *)
Lemma key_with_wrong_format_byte_is_refused_witness :
  exists e,
    fst (NewLoopOutSwap (sampleWorld (repeat x00 33) "") sampleTimeout
           (sampleClient (repeat x00 33) "") context.Background
           (repeat x01 32) 100000 keyG 0 []) = (None, Some e)
    /\ InvalidServerKeyError e.
Proof.
  apply (proj1 (key_with_wrong_format_byte_is_refused
                  (sampleWorld (repeat x00 33) "") sampleTimeout
                  (sampleClient (repeat x00 33) "") context.Background []
                  (repeat x01 32) 100000 keyG 0 "lnbc-in" x00
                  (repeat x00 32) eq_refl
                  ltac:(vm_compute; discriminate)
                  ltac:(vm_compute; discriminate))
           {| looprpc.ServerLoopOutResponse.SwapInvoice := "lnbc-swap";
              looprpc.ServerLoopOutResponse.PrepayInvoice := "lnbc-prepay";
              looprpc.ServerLoopOutResponse.SenderKey := repeat x00 33;
              looprpc.ServerLoopOutResponse.Expiry := 600000 |});
    reflexivity.
Defined.

(** ** Construction and teardown *)

(** What [grpc.Dial] hands back, and what [getSwapServerConn] makes of
    it. *)
Lemma grpc_Dial_run (w : World) (target : string)
  (opts : list grpc.DialOption) (tr : trace) :
  grpc_Dial w target opts tr
  = (match dialError w target opts with
     | Some err => (None, Some err)
     | None =>
         (Some {| grpc.target := target; grpc.dopts := opts |}, None)
     end, tr ++ [Dial target opts]).
Proof.
  unfold grpc_Dial, bind, emit, ret.
  destruct (dialError w target opts); reflexivity.
Qed.

(** The two ways [getSwapServerConn] ends: the certificate does not load
    and nothing is dialed, or one dial is made with the interceptor and one
    transport option, after at most the reading of the certificate. *)
Lemma getSwapServerConn_outcome (w : World) (address : string)
  (insecure : bool) (tlsPath : string) (interceptor : lsat.Interceptor)
  (tr : trace) :
  (exists e,
     insecure = false
     /\ getSwapServerConn w address insecure tlsPath interceptor tr
        = ((None, Some e), tr ++ [ReadFile tlsPath]))
  \/
  (exists pre t,
     is_transport t = true
     /\ (pre = [] \/ (insecure = false /\ pre = [ReadFile tlsPath]))
     /\ getSwapServerConn w address insecure tlsPath interceptor tr
        = (match dialError w address
                   [grpc.WithUnaryInterceptor interceptor; t] with
           | Some err =>
               (None,
                Some (fmt_Errorf_v "unable to connect to RPC server: " err))
           | None =>
               (Some {| grpc.target := address;
                        grpc.dopts :=
                          [grpc.WithUnaryInterceptor interceptor; t] |},
                None)
           end,
           tr ++ pre ++ [Dial address
                           [grpc.WithUnaryInterceptor interceptor; t]])).
Proof.
  unfold getSwapServerConn, bind.
  destruct insecure.
  - right. exists [], grpc.WithInsecure.
    split; [reflexivity|]. split; [left; reflexivity|].
    unfold ret. cbn [app]. rewrite grpc_Dial_run.
    destruct (dialError w address _); reflexivity.
  - destruct (tlsPath =? "")%string; cbn [negb].
    + right.
      exists [], (grpc.WithTransportCredentials
                    (Some (credentials.NewTLS credentials.emptyConfig))).
      split; [reflexivity|]. split; [left; reflexivity|].
      unfold ret. cbn [app]. rewrite grpc_Dial_run.
      destruct (dialError w address _); reflexivity.
    + unfold NewClientTLSFromFile, bind, emit, ret.
      destruct (file w tlsPath) as [pem [err|]].
      * left. exists err. split; reflexivity.
      * destruct (AppendCertsFromPEM w pem) as [pool ok].
        destruct ok; cbn [negb].
        -- right.
           exists [ReadFile tlsPath],
             (grpc.WithTransportCredentials
                (Some (credentials.NewTLS
                         {| credentials.ServerName := "";
                            credentials.RootCAs := Some pool |}))).
           split; [reflexivity|].
           split; [right; split; reflexivity|].
           cbn [app]. rewrite grpc_Dial_run, <- app_assoc. cbn [app].
           destruct (dialError w address _); reflexivity.
        -- left. eexists. split; reflexivity.
Qed.

(** X12. A dial that fails makes the construction fail: no client is
    returned, and the error is the error of the dial behind the words
    [unable to connect to RPC server: ]. This holds with the insecure
    flag, and without flag or path. *)
Theorem dial_error_is_wrapped
  (w : World) (serverRPCTimeout : Duration) (address tlsPath : string)
  (lsatStore : Store) (lnd : LndServices) (tr : trace) (derr : error) :
  let interceptor := lsat.NewInterceptor lnd lsatStore serverRPCTimeout in
  (dialError w address
     [grpc.WithUnaryInterceptor interceptor; grpc.WithInsecure] = Some derr ->
   newSwapServerClient w serverRPCTimeout address true tlsPath lsatStore lnd
     tr
   = ((None,
       Some (errorString
               (String.append "unable to connect to RPC server: "
                  (Error derr)))),
      tr ++ [Dial address
               [grpc.WithUnaryInterceptor interceptor; grpc.WithInsecure]]))
  /\
  (dialError w address
     [grpc.WithUnaryInterceptor interceptor;
      grpc.WithTransportCredentials
        (Some (credentials.NewTLS credentials.emptyConfig))] = Some derr ->
   newSwapServerClient w serverRPCTimeout address false "" lsatStore lnd tr
   = ((None,
       Some (errorString
               (String.append "unable to connect to RPC server: "
                  (Error derr)))),
      tr ++ [Dial address
               [grpc.WithUnaryInterceptor interceptor;
                grpc.WithTransportCredentials
                  (Some (credentials.NewTLS credentials.emptyConfig))]])).
Proof.
  intros interceptor. subst interceptor.
  split; intros Hdial;
    unfold newSwapServerClient, getSwapServerConn, bind, ret;
    cbn [String.eqb negb app]; rewrite grpc_Dial_run, Hdial; reflexivity.
Qed.

(** No dial succeeds. *)
Lemma dial_error_is_wrapped_witness :
  fst (newSwapServerClient noDialWorld (30 * Second) "swap.example:11010"
         true "/tls.cert" (StoreAt 2) (LndServicesAt 1) [])
  = (None,
     Some (errorString
             "unable to connect to RPC server: no transport security set")).
Proof.
  exact (f_equal fst
           (proj1 (dial_error_is_wrapped noDialWorld (30 * Second)
                     "swap.example:11010" "/tls.cert" (StoreAt 2)
                     (LndServicesAt 1) []
                     (externalError "no transport security set"))
              eq_refl)).
Defined.

(** X13. A client that the construction returns comes with no error; it
    holds the connection that was dialed to the address, and the stub on
    that connection; the dial is the last thing the construction did, and
    [Close] closes that very connection. *)
Theorem constructed_client_closes_its_connection
  (w : World) (serverRPCTimeout : Duration) (address : string)
  (insecure : bool) (tlsPath : string) (lsatStore : Store)
  (lnd : LndServices) (tr tr' : trace) (c : grpcSwapServerClient)
  (err : option error) :
  newSwapServerClient w serverRPCTimeout address insecure tlsPath lsatStore
    lnd tr = ((Some c, err), tr') ->
  err = None
  /\ exists pre opts,
       conn c = Some {| grpc.target := address; grpc.dopts := opts |}
       /\ server c = NewSwapServerClient w (conn c)
       /\ dialError w address opts = None
       /\ tr' = tr ++ pre ++ [Dial address opts]
       /\ snd (Close c tr')
          = tr ++ pre
            ++ [Dial address opts;
                CloseConn
                  (Some {| grpc.target := address; grpc.dopts := opts |})].
Proof.
  unfold newSwapServerClient, bind.
  destruct (getSwapServerConn_outcome w address insecure tlsPath
              (lsat.NewInterceptor lnd lsatStore serverRPCTimeout) tr)
    as [(e & _ & Hconn)|(pre & t & _ & _ & Hconn)];
    rewrite Hconn; [discriminate|].
  destruct (dialError w address _) as [derr|] eqn:Hdial; [discriminate|].
  unfold ret. intros H. inversion H; subst. split; [reflexivity|].
  exists pre, [grpc.WithUnaryInterceptor
                 (lsat.NewInterceptor lnd lsatStore serverRPCTimeout); t].
  cbn [conn server]. repeat split; [exact Hdial|].
  unfold Close, emit. cbn [conn snd].
  rewrite <- !app_assoc. reflexivity.
Qed.

(** A construction with the pinned certificate, then the teardown. *)
Lemma constructed_client_closes_its_connection_witness :
  exists c tr',
    newSwapServerClient pinnedWorld (30 * Second) "swap.example:11010"
      false "/tls.cert" (StoreAt 2) (LndServicesAt 1) []
    = ((Some c, None), tr')
    /\ exists pre opts,
         conn c = Some {| grpc.target := "swap.example:11010";
                          grpc.dopts := opts |}
         /\ server c = NewSwapServerClient pinnedWorld (conn c)
         /\ dialError pinnedWorld "swap.example:11010" opts = None
         /\ tr' = [] ++ pre ++ [Dial "swap.example:11010" opts]
         /\ snd (Close c tr')
            = [] ++ pre
              ++ [Dial "swap.example:11010" opts;
                  CloseConn
                    (Some {| grpc.target := "swap.example:11010";
                             grpc.dopts := opts |})].
Proof.
  eexists. eexists. split; [reflexivity|].
  refine (proj2 (constructed_client_closes_its_connection
                   pinnedWorld (30 * Second) "swap.example:11010" false
                   "/tls.cert" (StoreAt 2) (LndServicesAt 1) [] _ _ None _)).
  reflexivity.
Defined.

(** X14. Whatever the flag, the path and the world, the construction
    dials at most once, to the address it was given, with the interceptor
    made of its collaborators and the server timeout as first option and
    exactly one option of transport security after it. *)
Theorem construction_dials_once_with_one_transport_option
  (w : World) (serverRPCTimeout : Duration) (address : string)
  (insecure : bool) (tlsPath : string) (lsatStore : Store)
  (lnd : LndServices) (tr : trace) :
  exists new,
    snd (newSwapServerClient w serverRPCTimeout address insecure tlsPath
           lsatStore lnd tr) = tr ++ new
    /\ dials_well_formed address
         (lsat.NewInterceptor lnd lsatStore serverRPCTimeout) new
    /\ (List.length (dials new) <= 1)%nat.
Proof.
  unfold newSwapServerClient, bind.
  destruct (getSwapServerConn_outcome w address insecure tlsPath
              (lsat.NewInterceptor lnd lsatStore serverRPCTimeout) tr)
    as [(e & _ & Hconn)|(pre & t & Ht & Hpre & Hconn)];
    rewrite Hconn.
  - exists [ReadFile tlsPath]. split; [reflexivity|].
    split; [|cbn; lia].
    intros target opts [Hin|[]]. discriminate Hin.
  - exists (pre ++ [Dial address
                      [grpc.WithUnaryInterceptor
                         (lsat.NewInterceptor lnd lsatStore serverRPCTimeout);
                       t]]).
    split; [destruct (dialError w address _); reflexivity|].
    assert (Hpre' : pre = [] \/ pre = [ReadFile tlsPath])
      by (destruct Hpre as [H|[_ H]]; [left | right]; exact H).
    split.
    + intros target opts Hin. apply in_app_or in Hin.
      destruct Hin as [Hin|[Hin|[]]].
      * destruct Hpre' as [H|H]; subst pre; [destruct Hin|].
        destruct Hin as [Hin|[]]. discriminate Hin.
      * inversion Hin; subst. split; [reflexivity|].
        exists t. split; [reflexivity | exact Ht].
    + rewrite dials_app. destruct Hpre' as [H|H]; subst pre; cbn; lia.
Qed.

(** X15. With the insecure flag the construction does not touch the file
    system: its result and its trace are the same for any two certificate
    paths and any two worlds that agree on the dial and on the stub. *)
Theorem insecure_construction_ignores_certificates
  (w w' : World) (serverRPCTimeout : Duration) (address : string)
  (tlsPath tlsPath' : string) (lsatStore : Store) (lnd : LndServices)
  (tr : trace) :
  (forall opts, dialError w address opts = dialError w' address opts) ->
  (forall cn, NewSwapServerClient w cn = NewSwapServerClient w' cn) ->
  newSwapServerClient w serverRPCTimeout address true tlsPath lsatStore lnd
    tr
  = newSwapServerClient w' serverRPCTimeout address true tlsPath' lsatStore
      lnd tr
  /\ forall name,
       ~ In (ReadFile name)
           (skipn (List.length tr)
              (snd (newSwapServerClient w serverRPCTimeout address true
                      tlsPath lsatStore lnd tr))).
Proof.
  intros Hdial Hstub.
  unfold newSwapServerClient, getSwapServerConn, bind, ret. cbn [app].
  rewrite !grpc_Dial_run, Hdial.
  split.
  - destruct (dialError w' address _); [reflexivity|].
    rewrite Hstub. reflexivity.
  - intros name.
    destruct (dialError w' address _); cbn [snd];
      rewrite skipn_app, skipn_all, Nat.sub_diag; cbn [skipn app];
      intros [H|[]]; discriminate H.
Qed.

(** A world with a certificate and a world without any file. *)
Lemma insecure_construction_ignores_certificates_witness :
  newSwapServerClient pinnedWorld (30 * Second) "swap.example:11010" true
    "/tls.cert" (StoreAt 2) (LndServicesAt 1) []
  = newSwapServerClient (sampleWorld keyG "") (30 * Second)
      "swap.example:11010" true "/missing.cert" (StoreAt 2)
      (LndServicesAt 1) [].
Proof.
  exact (proj1 (insecure_construction_ignores_certificates
                  pinnedWorld (sampleWorld keyG "") (30 * Second)
                  "swap.example:11010" "/tls.cert" "/missing.cert"
                  (StoreAt 2) (LndServicesAt 1) []
                  (fun _ => eq_refl) (fun _ => eq_refl))).
Defined.

(** X16. The construction returns exactly one of a client and an error,
    whatever the flag, the path and the world. *)
Theorem construction_returns_client_xor_error
  (w : World) (serverRPCTimeout : Duration) (address : string)
  (insecure : bool) (tlsPath : string) (lsatStore : Store)
  (lnd : LndServices) (tr : trace) :
  exactly_one
    (fst (newSwapServerClient w serverRPCTimeout address insecure tlsPath
            lsatStore lnd tr)) = true.
Proof.
  unfold newSwapServerClient, bind.
  destruct (getSwapServerConn_outcome w address insecure tlsPath
              (lsat.NewInterceptor lnd lsatStore serverRPCTimeout) tr)
    as [(e & _ & Hconn)|(pre & t & _ & _ & Hconn)];
    rewrite Hconn; [reflexivity|].
  destruct (dialError w address _); reflexivity.
Qed.

(** ** The receiver key of [NewLoopInSwap] *)

(** X17. When the RPC of [NewLoopInSwap] succeeds and the receiver key
    the service returned is a compressed key, 33 bytes, that
    [btcec.ParsePubKey] accepts, the call returns no error and a response
    holding that key and the expiry of the reply. *)
Theorem NewLoopInSwap_valid_key_succeeds
  (w : World) (globalCallTimeout : Duration) (s : grpcSwapServerClient)
  (ctx : context.Context) (tr : trace) (swapHash : bytes) (amount : Z)
  (senderKey : bytes) (swapInvoice : string)
  (swapResp : looprpc.ServerLoopInResponse.t) (pk : btcec.PublicKey) :
  looprpc.NewLoopInSwap (server s) (rpcCtx w globalCallTimeout ctx)
    (loopInRequest swapHash amount senderKey swapInvoice) = Reply swapResp ->
  List.length (looprpc.ServerLoopInResponse.ReceiverKey swapResp) = 33%nat ->
  btcec.ParsePubKey (looprpc.ServerLoopInResponse.ReceiverKey swapResp)
    btcec.S256 = (Some pk, None) ->
  fst (NewLoopInSwap w globalCallTimeout s ctx swapHash amount senderKey
         swapInvoice tr)
  = (Some {|
       newLoopInResponse.receiverKey :=
         looprpc.ServerLoopInResponse.ReceiverKey swapResp;
       newLoopInResponse.expiry :=
         looprpc.ServerLoopInResponse.Expiry swapResp |}, None).
Proof.
  intros Hrpc Hlen Hparse.
  rewrite (NewLoopInSwap_returns _ _ _ _ _ _ _ _ _ _ Hrpc).
  rewrite validateServerKey_33 by exact Hlen.
  rewrite Hparse. cbn [snd].
  rewrite copy_33 by exact Hlen. reflexivity.
Qed.

(** The service answers with the base point. *)
Lemma NewLoopInSwap_valid_key_succeeds_witness :
  fst (NewLoopInSwap (sampleWorld keyG "") sampleTimeout
         (sampleClient keyG "") context.Background
         (repeat x01 32) 100000 keyZ "lnbc-in" [])
  = (Some {| newLoopInResponse.receiverKey := keyG;
             newLoopInResponse.expiry := 600000 |}, None).
Proof.
  apply (NewLoopInSwap_valid_key_succeeds
           (sampleWorld keyG "") sampleTimeout (sampleClient keyG "")
           context.Background [] (repeat x01 32) 100000 keyZ "lnbc-in"
           {| looprpc.ServerLoopInResponse.ReceiverKey := keyG;
              looprpc.ServerLoopInResponse.Expiry := 600000 |}
           {| btcec.Curve := btcec.S256;
              btcec.X := btcec.Gx btcec.S256;
              btcec.Y := btcec.Gy btcec.S256 |});
    [reflexivity | reflexivity | vm_compute; reflexivity].
Defined.

(** ** Which error a bad payment destination gives *)

(** The character an [InvalidByteError] names is a character of the
    source that is no hexadecimal digit. *)
Lemma Decode_invalid_byte (src : bytes) (c : byte) :
  snd (hex.Decode src) = Some (InvalidByteError c) ->
  is_hex_digit c = false /\ In c src.
Proof.
  induction src as [|c0|c1 c2 rest IH] using bytes_pair_ind;
    cbn [hex.Decode]; unfold is_hex_digit.
  - discriminate.
  - destruct (hex.fromHexChar c0) eqn:Hc0; cbn [snd]; intros H;
      inversion H; subst.
    rewrite Hc0. split; [reflexivity | left; reflexivity].
  - destruct (hex.fromHexChar c1) eqn:Hc1; cbn [snd].
    + destruct (hex.fromHexChar c2) eqn:Hc2; cbn [snd].
      * destruct (hex.Decode rest) as [out err]. cbn [snd] in *.
        intros H. destruct (IH H) as [Hbad Hin].
        split; [exact Hbad | right; right; exact Hin].
      * intros H. inversion H; subst. rewrite Hc2.
        split; [reflexivity | right; left; reflexivity].
    + intros H. inversion H; subst. rewrite Hc1.
      split; [reflexivity | left; reflexivity].
Qed.

(** [ErrLength] is kept for a source of digits only. *)
Lemma Decode_odd_length (src : bytes) :
  snd (hex.Decode src) = Some ErrLength ->
  forallb is_hex_digit src = true /\ Nat.odd (List.length src) = true.
Proof.
  induction src as [|c0|c1 c2 rest IH] using bytes_pair_ind;
    cbn [hex.Decode forallb].
  - discriminate.
  - unfold is_hex_digit.
    destruct (hex.fromHexChar c0); cbn [snd]; [|discriminate].
    intros _. split; reflexivity.
  - unfold is_hex_digit at 1 2.
    destruct (hex.fromHexChar c1); cbn [snd]; [|discriminate].
    destruct (hex.fromHexChar c2); cbn [snd]; [|discriminate].
    destruct (hex.Decode rest) as [out err]. cbn [snd andb] in *.
    intros H. destruct (IH H) as [Hall Hodd].
    split; [exact Hall|].
    cbn [List.length]. rewrite Nat.odd_succ_succ. exact Hodd.
Qed.

(** X18. Once its RPC has succeeded, [GetLoopOutQuote] fails in one of
    three ways, by the payment destination of the reply. A character that
    is no hexadecimal digit gives the [InvalidByteError] of such a
    character of the string, whatever the length. Digits in odd number
    give [ErrLength]. Digits in even number other than 66, the empty
    string among them, give [invalid payment dest]. *)
Theorem bad_payment_dest_errors
  (w : World) (globalCallTimeout : Duration) (s : grpcSwapServerClient)
  (ctx : context.Context) (tr : trace) (amt : Z) (deadline : Time)
  (quoteResp : looprpc.ServerLoopOutQuote.t) :
  looprpc.LoopOutQuote (server s) (rpcCtx w globalCallTimeout ctx)
    (loopOutQuoteRequest amt deadline) = Reply quoteResp ->
  let field := looprpc.ServerLoopOutQuote.SwapPaymentDest quoteResp in
  let res :=
    fst (GetLoopOutQuote w globalCallTimeout s ctx amt deadline tr) in
  (all_hex_digits field = false ->
   exists c,
     res = (None, Some (InvalidByteError c))
     /\ is_hex_digit c = false /\ In c (bytes_of_string field))
  /\
  (all_hex_digits field = true ->
   Nat.odd (String.length field) = true ->
   res = (None, Some ErrLength))
  /\
  (all_hex_digits field = true ->
   Nat.even (String.length field) = true ->
   String.length field <> 66%nat ->
   res = (None, Some (errors_New "invalid payment dest"))).
Proof.
  intros Hrpc field res. subst res.
  rewrite (GetLoopOutQuote_returns _ _ _ _ _ _ _ _ Hrpc). fold field.
  unfold all_hex_digits, hex.DecodeString.
  rewrite <- (bytes_of_string_length field).
  set (src := bytes_of_string field).
  pose proof (Decode_ok_iff src) as Hok.
  pose proof (Decode_length src) as Hlen.
  pose proof (Decode_invalid_byte src) as Hbyte.
  pose proof (Decode_odd_length src) as Hodd.
  pose proof (Decode_error src) as Hkind.
  destruct (hex.Decode src) as [dest [err|]]; cbn [snd] in *.
  - specialize (Hkind dest err eq_refl).
    destruct Hkind as [Herr|[c Herr]]; subst err.
    + destruct (Hodd eq_refl) as [Hall Ho].
      split; [intros Hbad; rewrite Hall in Hbad; discriminate Hbad|].
      split; [reflexivity|].
      intros _ Heven. rewrite <- Nat.negb_odd, Ho in Heven.
      discriminate Heven.
    + destruct (Hbyte c eq_refl) as [Hbad Hin].
      assert (Hall : forallb is_hex_digit src = false).
      { destruct (forallb is_hex_digit src) eqn:Hall; [|reflexivity].
        rewrite forallb_forall in Hall. rewrite (Hall c Hin) in Hbad.
        discriminate Hbad. }
      rewrite Hall.
      split; [intros _; exists c; repeat split; assumption|].
      split; discriminate.
  - destruct Hok as [Hok _]. destruct (Hok eq_refl) as [Heven Hall].
    specialize (Hlen dest eq_refl).
    split; [intros Hbad; rewrite Hall in Hbad; discriminate Hbad|].
    split.
    + intros _ Ho. rewrite <- Nat.negb_even, Heven in Ho. discriminate Ho.
    + intros _ _ H66.
      destruct (Z.eqb_spec (Z.of_nat (List.length dest)) 33) as [H33|H33];
        [lia | reflexivity].
Qed.

(** The service answers with an empty payment destination. *)
Lemma bad_payment_dest_errors_witness :
  fst (GetLoopOutQuote (sampleWorld keyG "") sampleTimeout
         (sampleClient keyG "") context.Background 100000 0 [])
  = (None, Some (errors_New "invalid payment dest")).
Proof.
  refine (proj2 (proj2 (bad_payment_dest_errors
            (sampleWorld keyG "") sampleTimeout (sampleClient keyG "")
            context.Background [] 100000 0
            {| looprpc.ServerLoopOutQuote.PrepayAmt := 1337;
               looprpc.ServerLoopOutQuote.SwapFee := 1000;
               looprpc.ServerLoopOutQuote.CltvDelta := 20;
               looprpc.ServerLoopOutQuote.SwapPaymentDest := "" |}
            eq_refl)) eq_refl eq_refl _).
  discriminate.
Defined.
